(** * Library management system: issue/return bookkeeping, search, sessions

    Shallow embedding of the Python modules [book.py], [member.py],
    [library.py], [issue_return.py], [search.py] and [auth_system.py].

    Python objects have identity and are mutated in place, so [Book] and
    [Member] instances live in two object stores indexed by address; the
    dictionaries of a [Library] hold addresses, in insertion order.  The
    clock ([datetime.now()]), the token generator ([uuid.uuid4()]) and the
    digest ([hashlib.sha256]) belong to the Python runtime: every clock
    reading and every fresh token is an explicit argument, and the digest is
    a section variable. *)

From Stdlib Require Import ZArith List String Ascii Bool Lia DecimalString.
From stdpp Require Import gmap strings fin_maps.
Import ListNotations.

Local Open Scope string_scope.
Local Open Scope Z_scope.

(** ** Python containers *)

(** Address of an object in a store. *)
Definition addr := nat.

(** In-place update of one object of a store. *)
Definition store_set {A : Type} (h : addr -> A) (a : addr) (v : A) : addr -> A :=
  fun x => if Nat.eqb x a then v else h x.

(** A Python [dict] with string keys whose iteration order is observable:
    an association list in insertion order. *)
Definition dict (V : Type) := list (string * V).

Fixpoint dict_get {V : Type} (d : dict V) (k : string) : option V :=
  match d with
  | [] => None
  | (k', v) :: d' => if String.eqb k k' then Some v else dict_get d' k
  end.

(** [d[k] = v]: an existing key keeps its position, a new key goes last. *)
Fixpoint dict_set {V : Type} (d : dict V) (k : string) (v : V) : dict V :=
  match d with
  | [] => [(k, v)]
  | (k', v') :: d' =>
      if String.eqb k k' then (k', v) :: d' else (k', v') :: dict_set d' k v
  end.

(** [del d[k]] for a key that is present.  Python raises [KeyError] for an
    absent key; every caller tests membership first. *)
Fixpoint dict_del {V : Type} (d : dict V) (k : string) : dict V :=
  match d with
  | [] => []
  | (k', v') :: d' =>
      if String.eqb k k' then d' else (k', v') :: dict_del d' k
  end.

Definition dict_values {V : Type} (d : dict V) : list V := List.map snd d.

(** [x in l] on a list of strings. *)
Definition list_contains (l : list string) (x : string) : bool :=
  List.existsb (String.eqb x) l.

(** [l.remove(x)]: drops the first occurrence.  Python raises [ValueError]
    when there is none; the one caller, [Member.return_book], tests
    membership first. *)
Fixpoint list_remove (l : list string) (x : string) : list string :=
  match l with
  | [] => []
  | y :: l' => if String.eqb x y then l' else y :: list_remove l' x
  end.

(** [x in l] on a list of objects compared by identity. *)
Definition obj_in (l : list addr) (x : addr) : bool :=
  List.existsb (Nat.eqb x) l.

(** ** book.py *)

Module Book.

Record t : Type := mk {
  isbn : string;
  title : string;
  author : string;
  copies : Z
}.

Definition set_copies (b : t) (c : Z) : t :=
  mk (isbn b) (title b) (author b) c.

Definition is_available (b : t) : bool := 0 <? copies b.

End Book.

(** ** member.py *)

Module Member.

Record t : Type := mk {
  member_id : string;
  name : string;
  borrowed_books : list string
}.

Definition init (member_id name : string) : t := mk member_id name [].

Definition set_borrowed_books (m : t) (l : list string) : t :=
  mk (member_id m) (name m) l.

Definition has_book (m : t) (isbn : string) : bool :=
  list_contains (borrowed_books m) isbn.

Definition borrow_book (m : t) (isbn : string) : t * bool :=
  if negb (list_contains (borrowed_books m) isbn)
  then (set_borrowed_books m (borrowed_books m ++ [isbn])%list, true)
  else (m, false).

Definition return_book (m : t) (isbn : string) : t * bool :=
  if list_contains (borrowed_books m) isbn
  then (set_borrowed_books m (list_remove (borrowed_books m) isbn), true)
  else (m, false).

Definition get_borrowed_count (m : t) : nat := List.length (borrowed_books m).

End Member.

(** ** library.py *)

Record Library : Type := mkLibrary {
  books : dict addr;
  members : dict addr
}.

(** The program state the catalogue functions work on: the two object stores
    and one [Library] instance. *)
Record World : Type := mkWorld {
  book_obj : addr -> Book.t;
  member_obj : addr -> Member.t;
  lib : Library
}.

Definition set_book (w : World) (a : addr) (b : Book.t) : World :=
  mkWorld (store_set (book_obj w) a b) (member_obj w) (lib w).

Definition set_member (w : World) (a : addr) (m : Member.t) : World :=
  mkWorld (book_obj w) (store_set (member_obj w) a m) (lib w).

Definition set_lib (w : World) (l : Library) : World :=
  mkWorld (book_obj w) (member_obj w) l.

Definition add_book (w : World) (book : addr) : World * bool :=
  (set_lib w (mkLibrary (dict_set (books (lib w)) (Book.isbn (book_obj w book)) book)
                        (members (lib w))), true).

Definition remove_book (w : World) (isbn : string) : World * bool :=
  match dict_get (books (lib w)) isbn with
  | Some _ =>
      (set_lib w (mkLibrary (dict_del (books (lib w)) isbn) (members (lib w))), true)
  | None => (w, false)
  end.

Definition get_book (w : World) (isbn : string) : option addr :=
  dict_get (books (lib w)) isbn.

Definition add_member (w : World) (member : addr) : World * bool :=
  (set_lib w (mkLibrary (books (lib w))
                        (dict_set (members (lib w))
                                  (Member.member_id (member_obj w member)) member)), true).

Definition remove_member (w : World) (member_id : string) : World * bool :=
  match dict_get (members (lib w)) member_id with
  | Some _ =>
      (set_lib w (mkLibrary (books (lib w)) (dict_del (members (lib w)) member_id)), true)
  | None => (w, false)
  end.

Definition get_member (w : World) (member_id : string) : option addr :=
  dict_get (members (lib w)) member_id.

Definition list_books (w : World) : list addr := dict_values (books (lib w)).

Definition list_members (w : World) : list addr := dict_values (members (lib w)).

Definition get_available_books (w : World) : list addr :=
  List.filter (fun book => 0 <? Book.copies (book_obj w book))
              (dict_values (books (lib w))).

(** The dictionary [get_library_stats] returns. *)
Record library_stats : Type := mk_library_stats {
  total_books : nat;
  available_books : nat;
  total_members : nat;
  books_borrowed : nat
}.

Definition get_library_stats (w : World) : library_stats :=
  mk_library_stats
    (List.length (books (lib w)))
    (List.length (get_available_books w))
    (List.length (members (lib w)))
    (List.list_sum
       (List.map (fun member => List.length (Member.borrowed_books (member_obj w member)))
                 (dict_values (members (lib w))))).

(** ** issue_return.py *)

Definition issue_book (w : World) (isbn : string) (member : addr)
  : World * (bool * string) :=
  match get_book w isbn with
  | None => (w, (false, "Book with ISBN " +:+ isbn +:+ " not found in library"))
  | Some book =>
      if Book.copies (book_obj w book) <=? 0 then
        (w, (false, "Book '" +:+ Book.title (book_obj w book)
                      +:+ "' is not available (no copies left)"))
      else if Member.has_book (member_obj w member) isbn then
        (w, (false, "Member " +:+ Member.name (member_obj w member)
                      +:+ " already has this book"))
      else
        let w1 := set_book w book
                    (Book.set_copies (book_obj w book)
                                     (Book.copies (book_obj w book) - 1)) in
        let w2 := set_member w1 member
                    (fst (Member.borrow_book (member_obj w1 member) isbn)) in
        (w2, (true, "Book '" +:+ Book.title (book_obj w2 book) +:+ "' issued to "
                      +:+ Member.name (member_obj w2 member)))
  end.

Definition return_book (w : World) (isbn : string) (member : addr)
  : World * (bool * string) :=
  match get_book w isbn with
  | None => (w, (false, "Book with ISBN " +:+ isbn +:+ " not found in library"))
  | Some book =>
      if negb (Member.has_book (member_obj w member) isbn) then
        (w, (false, "Member " +:+ Member.name (member_obj w member)
                      +:+ " doesn't have this book"))
      else
        let w1 := set_book w book
                    (Book.set_copies (book_obj w book)
                                     (Book.copies (book_obj w book) + 1)) in
        let w2 := set_member w1 member
                    (fst (Member.return_book (member_obj w1 member) isbn)) in
        (w2, (true, "Book '" +:+ Book.title (book_obj w2 book) +:+ "' returned by "
                      +:+ Member.name (member_obj w2 member)))
  end.

Definition issue_book_by_id (w : World) (isbn member_id : string)
  : World * (bool * string) :=
  match get_member w member_id with
  | None => (w, (false, "Member with ID " +:+ member_id +:+ " not found"))
  | Some member => issue_book w isbn member
  end.

Definition return_book_by_id (w : World) (isbn member_id : string)
  : World * (bool * string) :=
  match get_member w member_id with
  | None => (w, (false, "Member with ID " +:+ member_id +:+ " not found"))
  | Some member => return_book w isbn member
  end.

(** One entry of the list [get_member_borrowed_books] builds. *)
Record borrowed_detail : Type := mk_borrowed_detail {
  detail_isbn : string;
  detail_title : string;
  detail_author : string
}.

(** Second component of the pair [get_member_borrowed_books] returns. *)
Inductive borrowed_data : Type :=
| Details (borrowed_details : list borrowed_detail)
| Message (msg : string).

Definition get_member_borrowed_books (w : World) (member_id : string)
  : bool * borrowed_data :=
  match get_member w member_id with
  | None => (false, Message ("Member with ID " +:+ member_id +:+ " not found"))
  | Some member =>
      (true,
       Details
         (List.fold_left
            (fun borrowed_details isbn =>
               match get_book w isbn with
               | Some book =>
                   (borrowed_details
                      ++ [mk_borrowed_detail isbn (Book.title (book_obj w book))
                                             (Book.author (book_obj w book))])%list
               | None => borrowed_details
               end)
            (Member.borrowed_books (member_obj w member)) []))
  end.

(** One entry of the list [get_overdue_books] builds. *)
Record overdue_entry : Type := mk_overdue_entry {
  entry_member_id : string;
  entry_member_name : string;
  entry_isbn : string;
  entry_title : string;
  entry_author : string
}.

Definition get_overdue_books (w : World) : list overdue_entry :=
  List.fold_left
    (fun borrowed_books member =>
       List.fold_left
         (fun borrowed_books isbn =>
            match get_book w isbn with
            | Some book =>
                (borrowed_books
                   ++ [mk_overdue_entry (Member.member_id (member_obj w member))
                                        (Member.name (member_obj w member))
                                        isbn
                                        (Book.title (book_obj w book))
                                        (Book.author (book_obj w book))])%list
            | None => borrowed_books
            end)
         (Member.borrowed_books (member_obj w member)) borrowed_books)
    (list_members w) [].

(** An [int] as an f-string prints it: decimal digits, with a minus sign
    for a negative number. *)
Definition str_of_int (z : Z) : string := NilZero.string_of_int (Z.to_int z).

Definition check_book_availability (w : World) (isbn : string)
  : bool * bool * Z * string :=
  match get_book w isbn with
  | None => (false, false, 0, "Book with ISBN " +:+ isbn +:+ " not found")
  | Some book =>
      let available := 0 <? Book.copies (book_obj w book) in
      let message :=
        if available
        then "Book '" +:+ Book.title (book_obj w book) +:+ "' - "
               +:+ str_of_int (Book.copies (book_obj w book)) +:+ " copies available"
        else "Book '" +:+ Book.title (book_obj w book) +:+ "' - No copies available" in
      (true, available, Book.copies (book_obj w book), message)
  end.

(** ** search.py *)

(** Truth value of a [str]: only the empty string is false. *)
Definition str_truthy (s : string) : bool :=
  match s with
  | EmptyString => false
  | String _ _ => true
  end.

(** [str.lower()] on the ASCII range: [A]..[Z] go to [a]..[z], every other
    character is kept. *)
Definition lower_char (c : ascii) : ascii :=
  let n := nat_of_ascii c in
  if (Nat.leb 65 n && Nat.leb n 90)%bool then ascii_of_nat (n + 32) else c.

Fixpoint lower (s : string) : string :=
  match s with
  | EmptyString => EmptyString
  | String c s' => String (lower_char c) (lower s')
  end.

(** [sub in s] on strings: [sub] starts at some position of [s]. *)
Fixpoint str_contains (s sub : string) : bool :=
  if String.prefix sub s then true
  else match s with
       | EmptyString => false
       | String _ s' => str_contains s' sub
       end.

Definition search_by_title (w : World) (title : string) : list addr :=
  if negb (str_truthy title) then []
  else
    let title_lower := lower title in
    List.fold_left
      (fun matching_books book =>
         if str_contains (lower (Book.title (book_obj w book))) title_lower
         then (matching_books ++ [book])%list else matching_books)
      (dict_values (books (lib w))) [].

Definition search_by_author (w : World) (author : string) : list addr :=
  if negb (str_truthy author) then []
  else
    let author_lower := lower author in
    List.fold_left
      (fun matching_books book =>
         if str_contains (lower (Book.author (book_obj w book))) author_lower
         then (matching_books ++ [book])%list else matching_books)
      (dict_values (books (lib w))) [].

Definition search_by_isbn (w : World) (isbn : string) : option addr :=
  get_book w isbn.

Definition search_books (w : World) (query search_type : string) : list addr :=
  if negb (str_truthy query) then []
  else
    let results := [] in
    let results :=
      if list_contains ["all"; "title"] search_type
      then (results ++ search_by_title w query)%list else results in
    let results :=
      if list_contains ["all"; "author"] search_type
      then List.fold_left
             (fun results book =>
                if negb (obj_in results book) then (results ++ [book])%list else results)
             (search_by_author w query) results
      else results in
    let results :=
      if list_contains ["all"; "isbn"] search_type
      then match search_by_isbn w query with
           | Some isbn_result =>
               if negb (obj_in results isbn_result)
               then (results ++ [isbn_result])%list else results
           | None => results
           end
      else results in
    results.

Definition search_available_books (w : World) (query search_type : string)
  : list addr :=
  List.filter (fun book => 0 <? Book.copies (book_obj w book))
              (search_books w query search_type).

(** Truth value of an optional [str] argument: [None] and the empty string
    are false. *)
Definition opt_truthy (s : option string) : bool :=
  match s with
  | Some s => str_truthy s
  | None => false
  end.

Definition advanced_search (w : World) (title author isbn : option string)
  (available_only : bool) : list addr :=
  let results := dict_values (books (lib w)) in
  let results :=
    match title with
    | Some title =>
        if str_truthy title then
          let title_lower := lower title in
          List.filter
            (fun book => str_contains (lower (Book.title (book_obj w book))) title_lower)
            results
        else results
    | None => results
    end in
  let results :=
    match author with
    | Some author =>
        if str_truthy author then
          let author_lower := lower author in
          List.filter
            (fun book => str_contains (lower (Book.author (book_obj w book))) author_lower)
            results
        else results
    | None => results
    end in
  let results :=
    match isbn with
    | Some isbn =>
        if str_truthy isbn then
          List.filter (fun book => String.eqb (Book.isbn (book_obj w book)) isbn) results
        else results
    | None => results
    end in
  let results :=
    if available_only
    then List.filter (fun book => 0 <? Book.copies (book_obj w book)) results
    else results in
  results.

(** The dictionary [search_statistics] returns. *)
Record search_stats : Type := mk_search_stats {
  total_matches : Z;
  available_matches : Z;
  unavailable_matches : Z;
  stats_query : string
}.

Definition search_statistics (w : World) (query : string) : search_stats :=
  let all_results := search_books w query "all" in
  let available_results := search_available_books w query "all" in
  mk_search_stats
    (Z.of_nat (List.length all_results))
    (Z.of_nat (List.length available_results))
    (Z.of_nat (List.length all_results) - Z.of_nat (List.length available_results))
    query.

(** ** auth_system.py *)

(** What a call does: it returns a value or raises. *)
Inductive outcome (A : Type) : Type :=
| Returns (a : A)
| Raises (exn : string).

Arguments Returns {A} a.
Arguments Raises {A} exn.

Module User.

Record t : Type := mk {
  password : string;
  role : string;
  info : list (string * string);
  created_at : Z;
  last_login : option Z
}.

Definition set_last_login (u : t) (now : Z) : t :=
  mk (password u) (role u) (info u) (created_at u) (Some now).

Definition set_password (u : t) (h : string) : t :=
  mk h (role u) (info u) (created_at u) (last_login u).

End User.

Module Session.

Record t : Type := mk {
  username : string;
  created_at : Z;
  expires_at : Z
}.

End Session.

Record AuthSystem : Type := mkAuthSystem {
  users : gmap string User.t;
  sessions : gmap string Session.t;
  session_timeout : Z
}.

Definition set_users (a : AuthSystem) (u : gmap string User.t) : AuthSystem :=
  mkAuthSystem u (sessions a) (session_timeout a).

Definition set_sessions (a : AuthSystem) (s : gmap string Session.t) : AuthSystem :=
  mkAuthSystem (users a) s (session_timeout a).

(** Timestamps are microseconds on the clock of [datetime.now()];
    [timedelta(minutes=n)] is [n] minutes in that unit. *)
Definition timedelta_minutes (n : Z) : Z := n * 60000000.

(** Second component of the pair [authenticate] returns. *)
Inductive auth_data : Type :=
| UserData (username role : string) (info : list (string * string))
| ErrorMessage (msg : string).

Section WithDigest.

(** [_hash_password]: the hexadecimal SHA-256 digest of the password. *)
Variable hash_password : string -> string.

Definition add_user (a : AuthSystem) (now : Z) (username password role : string)
  (user_info : option (list (string * string))) : AuthSystem * bool :=
  match users a !! username with
  | Some _ => (a, false)
  | None =>
      (set_users a
         (<[username := User.mk (hash_password password) role
                          (match user_info with Some i => i | None => [] end)
                          now None]> (users a)), true)
  end.

(** [AuthSystem(session_timeout=30)]: empty stores, then the two default
    accounts; [now_librarian] and [now_member] are the clock readings of the
    two [add_user] calls.  [None] stands for the omitted argument. *)
Definition new_auth_system (now_librarian now_member : Z)
  (session_timeout : option Z) : AuthSystem :=
  let a := mkAuthSystem empty empty
             (match session_timeout with Some t => t | None => 30 end) in
  let a := fst (add_user a now_librarian "librarian" "admin123" "librarian"
                  (Some [("name", "System Librarian");
                         ("email", "librarian@library.com")])) in
  let a := fst (add_user a now_member "member" "member123" "member"
                  (Some [("name", "Sample Member");
                         ("email", "member@example.com")])) in
  a.

Definition authenticate (a : AuthSystem) (now : Z) (username password : string)
  : AuthSystem * (bool * auth_data) :=
  match users a !! username with
  | None => (a, (false, ErrorMessage "Username not found"))
  | Some user =>
      if negb (String.eqb (User.password user) (hash_password password)) then
        (a, (false, ErrorMessage "Invalid password"))
      else
        (set_users a (<[username := User.set_last_login user now]> (users a)),
         (true, UserData username (User.role user) (User.info user)))
  end.

(** [session_token] is the value [uuid.uuid4()] produced; [now_expiry] and
    [now_created] are the two clock readings, in program order. *)
Definition create_session (a : AuthSystem) (session_token : string)
  (now_expiry now_created : Z) (username : string) : AuthSystem * string :=
  let expiry_time := now_expiry + timedelta_minutes (session_timeout a) in
  (set_sessions a
     (<[session_token := Session.mk username now_created expiry_time]> (sessions a)),
   session_token).

Definition validate_session (a : AuthSystem) (now : Z) (session_token : string)
  : AuthSystem * (bool * option string) :=
  match sessions a !! session_token with
  | None => (a, (false, None))
  | Some session =>
      if Session.expires_at session <? now then
        (set_sessions a (delete session_token (sessions a)), (false, None))
      else (a, (true, Some (Session.username session)))
  end.

Definition logout (a : AuthSystem) (session_token : string) : AuthSystem * bool :=
  match sessions a !! session_token with
  | Some _ => (set_sessions a (delete session_token (sessions a)), true)
  | None => (a, false)
  end.

Definition change_password (a : AuthSystem) (now : Z)
  (username old_password new_password : string)
  : outcome (AuthSystem * (bool * string)) :=
  let '(a1, (auth_success, _)) := authenticate a now username old_password in
  if negb auth_success then
    Returns (a1, (false, "Current password is incorrect"))
  else
    match users a1 !! username with
    | None => Raises "KeyError"
    | Some user =>
        Returns
          (set_users a1
             (<[username := User.set_password user (hash_password new_password)]>
                (users a1)),
           (true, "Password changed successfully"))
    end.

Definition get_user_role (a : AuthSystem) (username : string) : option string :=
  match users a !! username with
  | Some user => Some (User.role user)
  | None => None
  end.

(** The sweep collects the expired tokens first and deletes them afterwards;
    the order in which the dictionary is walked shows neither in the count
    nor in the store that is left. *)
Definition cleanup_expired_sessions (a : AuthSystem) (current_time : Z)
  : AuthSystem * nat :=
  let expired_sessions :=
    List.map fst
      (List.filter (fun ts => Session.expires_at (snd ts) <? current_time)
                   (map_to_list (sessions a))) in
  (set_sessions a
     (List.fold_left (fun s token => delete token s) expired_sessions (sessions a)),
   List.length expired_sessions).

End WithDigest.

Definition is_librarian (a : AuthSystem) (username : string) : bool :=
  match get_user_role a username with
  | Some role => String.eqb role "librarian"
  | None => false
  end.

Definition is_member (a : AuthSystem) (username : string) : bool :=
  match get_user_role a username with
  | Some role => String.eqb role "member"
  | None => false
  end.

(** The module-level [authenticate] kept for backwards compatibility.
    [user_db] is [None] when the argument is omitted; a dictionary is false
    when it is empty. *)
Module Legacy.

Definition default_users : gmap string string :=
  <["member" := "member123"]> (<["librarian" := "admin123"]> empty).

Definition dict_truthy (user_db : option (gmap string string)) : bool :=
  match user_db with
  | Some db => negb (bool_decide (db = empty))
  | None => false
  end.

(** [db.get(username) == password]: a missing key gives [None], which is no
    password. *)
Definition get_equals (db : gmap string string) (username password : string) : bool :=
  match db !! username with
  | Some stored => String.eqb stored password
  | None => false
  end.

Definition authenticate (username password : string)
  (user_db : option (gmap string string)) : bool :=
  if dict_truthy user_db then
    match user_db with
    | Some db => get_equals db username password
    | None => get_equals default_users username password
    end
  else get_equals default_users username password.

End Legacy.

(** ** Quantities and predicates the properties are stated with *)

(** Number of entries of the members dictionary whose borrowed list contains
    [isbn]. *)
Definition holders (w : World) (isbn : string) : nat :=
  List.length
    (List.filter (fun m => Member.has_book (member_obj w m) isbn) (list_members w)).

(** [book.copies] plus the number of holders, for an ISBN of the books
    dictionary. *)
Definition total_copies (w : World) (isbn : string) : option Z :=
  match get_book w isbn with
  | Some book => Some (Book.copies (book_obj w book) + Z.of_nat (holders w isbn))
  | None => None
  end.

(** A state transformer leaves the per-ISBN total of every catalogued ISBN
    unchanged. *)
Definition conserves_totals (step : World -> World) (w : World) : Prop :=
  forall isbn, get_book w isbn <> None ->
    total_copies (step w) isbn = total_copies w isbn.

(** The data-model invariants of the catalogue: every key of either
    dictionary holds an object of its own, and no member's borrowed list
    repeats an ISBN. *)
Record well_formed (w : World) : Prop := mk_well_formed {
  wf_books : List.NoDup (list_books w);
  wf_members : List.NoDup (list_members w);
  wf_borrowed :
    forall m, In m (list_members w) ->
      List.NoDup (Member.borrowed_books (member_obj w m))
}.

(** No catalogued book has a negative number of copies. *)
Definition copies_non_negative (w : World) : Prop :=
  forall isbn book, get_book w isbn = Some book -> 0 <= Book.copies (book_obj w book).

(** The keys of a dictionary are pairwise different, as in every Python
    [dict]. *)
Definition keys_unique {V : Type} (d : dict V) : Prop :=
  List.NoDup (List.map fst d).

(** The member object is one of the members the library holds. *)
Definition registered (w : World) (member : addr) : Prop :=
  In member (list_members w).

(** Two states with the same library and the same objects at every address. *)
Definition same_state (w1 w2 : World) : Prop :=
  lib w1 = lib w2 /\
  (forall a, book_obj w1 a = book_obj w2 a) /\
  (forall a, member_obj w1 a = member_obj w2 a).

(** The failure reasons of [issue_book] and [return_book], as the messages
    the functions build. *)
Definition NotFound (isbn : string) : string :=
  "Book with ISBN " +:+ isbn +:+ " not found in library".

Definition Unavailable (w : World) (book : addr) : string :=
  "Book '" +:+ Book.title (book_obj w book) +:+ "' is not available (no copies left)".

Definition AlreadyHeld (w : World) (member : addr) : string :=
  "Member " +:+ Member.name (member_obj w member) +:+ " already has this book".

Definition NotHeld (w : World) (member : addr) : string :=
  "Member " +:+ Member.name (member_obj w member) +:+ " doesn't have this book".

(** The state a successful [issue_book] leaves: one copy fewer of the book
    and the ISBN at the end of the member's borrowed list. *)
Definition issued (w : World) (book member : addr) (isbn : string) : World :=
  set_member
    (set_book w book
       (Book.set_copies (book_obj w book) (Book.copies (book_obj w book) - 1)))
    member
    (Member.set_borrowed_books (member_obj w member)
       (Member.borrowed_books (member_obj w member) ++ [isbn])%list).

(** The state a successful [return_book] leaves: one copy more of the book
    and the first occurrence of the ISBN gone from the borrowed list. *)
Definition returned (w : World) (book member : addr) (isbn : string) : World :=
  set_member
    (set_book w book
       (Book.set_copies (book_obj w book) (Book.copies (book_obj w book) + 1)))
    member
    (Member.set_borrowed_books (member_obj w member)
       (list_remove (Member.borrowed_books (member_obj w member)) isbn)).

(** The four ways a call of [issue_book] ends. *)
Inductive issue_result (w : World) (isbn : string) (member : addr)
  : World * (bool * string) -> Prop :=
| issue_not_found :
    get_book w isbn = None ->
    issue_result w isbn member (w, (false, NotFound isbn))
| issue_unavailable book :
    get_book w isbn = Some book ->
    Book.copies (book_obj w book) <= 0 ->
    issue_result w isbn member (w, (false, Unavailable w book))
| issue_already_held book :
    get_book w isbn = Some book ->
    0 < Book.copies (book_obj w book) ->
    Member.has_book (member_obj w member) isbn = true ->
    issue_result w isbn member (w, (false, AlreadyHeld w member))
| issue_done book :
    get_book w isbn = Some book ->
    0 < Book.copies (book_obj w book) ->
    Member.has_book (member_obj w member) isbn = false ->
    issue_result w isbn member
      (issued w book member isbn,
       (true, "Book '" +:+ Book.title (book_obj w book) +:+ "' issued to "
                +:+ Member.name (member_obj w member))).

(** The three ways a call of [return_book] ends. *)
Inductive return_result (w : World) (isbn : string) (member : addr)
  : World * (bool * string) -> Prop :=
| return_not_found :
    get_book w isbn = None ->
    return_result w isbn member (w, (false, NotFound isbn))
| return_not_held book :
    get_book w isbn = Some book ->
    Member.has_book (member_obj w member) isbn = false ->
    return_result w isbn member (w, (false, NotHeld w member))
| return_done book :
    get_book w isbn = Some book ->
    Member.has_book (member_obj w member) isbn = true ->
    return_result w isbn member
      (returned w book member isbn,
       (true, "Book '" +:+ Book.title (book_obj w book) +:+ "' returned by "
                +:+ Member.name (member_obj w member))).

(** A catalogue of three books, added in the order of their addresses. *)
Definition search_books_store : addr -> Book.t :=
  fun a =>
    match a with
    | O => Book.mk "111" "Python Programming" "John Smith" 3
    | S O => Book.mk "222" "Advanced Python" "Jane Doe" 0
    | _ => Book.mk "333" "Java Basics" "Bob Python" 1
    end.

Definition search_world : World :=
  fst (add_book
         (fst (add_book
                 (fst (add_book
                         (mkWorld search_books_store
                                  (fun _ => Member.init "M1" "N1") (mkLibrary [] []))
                         0%nat))
                 1%nat))
         2%nat).

(** A stand-in for the digest, to run the model on concrete passwords: it
    tags the password. *)
Definition sample_digest (password : string) : string := "sha256:" +:+ password.

(** A fresh authentication system with the default timeout, and the same
    system after a session was created for the librarian at time 1000. *)
Definition sample_auth : AuthSystem := new_auth_system sample_digest 0 0 None.

Definition sample_auth_session : AuthSystem :=
  fst (create_session sample_auth "token-1" 1000 1000 "librarian").






(** Every book of the catalogue is stored under the ISBN it carries. *)
Definition keyed_by_isbn (w : World) : Prop :=
  forall isbn book, In (isbn, book) (books (lib w)) ->
    Book.isbn (book_obj w book) = isbn.

(** What the loop of [get_member_borrowed_books] adds for one borrowed
    ISBN: an entry when the ISBN is catalogued, nothing otherwise. *)
Definition detail_of (w : World) (isbn : string) : list borrowed_detail :=
  match get_book w isbn with
  | Some book =>
      [mk_borrowed_detail isbn (Book.title (book_obj w book))
                          (Book.author (book_obj w book))]
  | None => []
  end.

(** What the inner loop of [get_overdue_books] adds for one borrowed ISBN of
    a member. *)
Definition entry_of (w : World) (member : addr) (isbn : string) : list overdue_entry :=
  match get_book w isbn with
  | Some book =>
      [mk_overdue_entry (Member.member_id (member_obj w member))
                        (Member.name (member_obj w member))
                        isbn
                        (Book.title (book_obj w book))
                        (Book.author (book_obj w book))]
  | None => []
  end.

(** The ISBN is catalogued. *)
Definition catalogued (w : World) (isbn : string) : bool :=
  match get_book w isbn with
  | Some _ => true
  | None => false
  end.

(** A catalogue with Book("123", "T1", "A1", 2) at address 0, registered under
    its ISBN, Member("M1", "N1") at address 0, registered under its id, and
    Member("M9", "N9") at address 1, which was never added to the library. *)
Definition sample_books : addr -> Book.t :=
  fun _ => Book.mk "123" "T1" "A1" 2.

Definition sample_members : addr -> Member.t :=
  fun a => if Nat.eqb a 0 then Member.init "M1" "N1" else Member.init "M9" "N9".

Definition sample_world : World :=
  fst (add_member
         (fst (add_book (mkWorld sample_books sample_members (mkLibrary [] [])) 0%nat))
         0%nat).

(** * Properties *)

(** ** Lists, dictionaries and stores *)

Lemma list_contains_In (l : list string) (x : string) :
  list_contains l x = true <-> In x l.
Proof.
  unfold list_contains. rewrite List.existsb_exists. split.
  - intros (y & Hy & He). apply String.eqb_eq in He. now subst.
  - intros H. exists x. split; [assumption | apply String.eqb_refl].
Qed.

Lemma list_contains_snoc (l : list string) (x y : string) :
  list_contains (l ++ [y])%list x = (list_contains l x || String.eqb x y)%bool.
Proof.
  unfold list_contains. rewrite List.existsb_app. simpl.
  now rewrite orb_false_r.
Qed.

Lemma list_remove_snoc (l : list string) (x : string) :
  list_contains l x = false -> list_remove (l ++ [x])%list x = l.
Proof.
  induction l as [|y l IH]; simpl.
  - now rewrite String.eqb_refl.
  - intros H. apply orb_false_elim in H as [Hy Hl].
    rewrite Hy. f_equal. now apply IH.
Qed.

Lemma list_contains_remove_other (l : list string) (x y : string) :
  x <> y -> list_contains (list_remove l y) x = list_contains l x.
Proof.
  intros Hne. induction l as [|z l IH]; simpl; [reflexivity|].
  destruct (String.eqb_spec y z) as [->|Hyz]; simpl.
  - apply String.eqb_neq in Hne. now rewrite Hne.
  - now rewrite IH.
Qed.

Lemma list_contains_remove_same (l : list string) (x : string) :
  List.NoDup l -> list_contains (list_remove l x) x = false.
Proof.
  induction 1 as [|y l Hy Hl IH]; simpl; [reflexivity|].
  destruct (String.eqb_spec x y) as [->|Hxy]; simpl.
  - destruct (list_contains l y) eqn:E; [|reflexivity].
    apply list_contains_In in E. contradiction.
  - rewrite IH. apply String.eqb_neq in Hxy. now rewrite Hxy.
Qed.

Lemma store_set_same {A : Type} (h : addr -> A) (a : addr) (v : A) :
  store_set h a v a = v.
Proof. unfold store_set. now rewrite Nat.eqb_refl. Qed.

Lemma store_set_other {A : Type} (h : addr -> A) (a x : addr) (v : A) :
  x <> a -> store_set h a v x = h x.
Proof.
  intros H. unfold store_set. apply Nat.eqb_neq in H. now rewrite H.
Qed.

Lemma dict_get_In {V : Type} (d : dict V) (k : string) (v : V) :
  dict_get d k = Some v -> In v (dict_values d).
Proof.
  induction d as [|[k' v'] d IH]; simpl; [discriminate|].
  destruct (String.eqb k k').
  - intros [= ->]. now left.
  - intros H. right. now apply IH.
Qed.

(** In a dictionary whose values are pairwise distinct objects, an object is
    found under one key only. *)
Lemma dict_get_inj {V : Type} (d : dict V) (k1 k2 : string) (v : V) :
  List.NoDup (dict_values d) ->
  dict_get d k1 = Some v -> dict_get d k2 = Some v -> k1 = k2.
Proof.
  induction d as [|[k' v'] d IH]; simpl; [discriminate|].
  intros Hnd H1 H2. apply List.NoDup_cons_iff in Hnd as [Hnotin Hnd].
  destruct (String.eqb_spec k1 k') as [->|N1], (String.eqb_spec k2 k') as [->|N2].
  - reflexivity.
  - injection H1 as ->. apply dict_get_In in H2. contradiction.
  - injection H2 as ->. apply dict_get_In in H1. contradiction.
  - now apply IH.
Qed.

(** Counting the objects that satisfy a test, when the test changes at one
    object only. *)
Lemma count_change_at (f g : addr -> bool) (ms : list addr) (m : addr) :
  List.NoDup ms -> In m ms -> (forall x, x <> m -> g x = f x) ->
  (List.length (List.filter g ms) + (if f m then 1 else 0)
   = List.length (List.filter f ms) + (if g m then 1 else 0))%nat.
Proof.
  intros Hnd Hin Hext. induction Hnd as [|x ms Hx Hnd IH]; [destruct Hin|].
  destruct (Nat.eq_dec x m) as [->|Hne].
  - assert (E : List.filter g ms = List.filter f ms).
    { apply List.filter_ext_in. intros y Hy. apply Hext. intros ->. contradiction. }
    simpl. rewrite E. destruct (f m), (g m); simpl; lia.
  - destruct Hin as [->|Hin]; [contradiction|].
    specialize (IH Hin). simpl. rewrite (Hext x Hne).
    destruct (f x); simpl; lia.
Qed.

(** ** The issue/return workflow *)

Arguments list_contains : simpl never.
Arguments list_remove : simpl never.

Lemma issue_book_result (w : World) (isbn : string) (member : addr) :
  issue_result w isbn member (issue_book w isbn member).
Proof.
  unfold issue_book.
  destruct (get_book w isbn) as [book|] eqn:Hb; [|now constructor].
  destruct (Z.leb_spec (Book.copies (book_obj w book)) 0) as [Hc|Hc].
  - now apply (issue_unavailable _ _ _ book).
  - destruct (Member.has_book (member_obj w member) isbn) eqn:Hh.
    + now apply (issue_already_held _ _ _ book).
    + cbn [set_book book_obj member_obj set_member].
      rewrite !store_set_same.
      unfold Member.borrow_book. unfold Member.has_book in Hh. rewrite Hh.
      cbn [negb fst Book.set_copies Book.title Member.set_borrowed_books Member.name].
      now apply (issue_done _ _ _ book).
Qed.

Lemma return_book_result (w : World) (isbn : string) (member : addr) :
  return_result w isbn member (return_book w isbn member).
Proof.
  unfold return_book.
  destruct (get_book w isbn) as [book|] eqn:Hb; [|now constructor].
  destruct (Member.has_book (member_obj w member) isbn) eqn:Hh; cbn [negb].
  - cbn [set_book book_obj member_obj set_member].
    rewrite !store_set_same.
    unfold Member.return_book. unfold Member.has_book in Hh. rewrite Hh.
    cbn [fst Book.set_copies Book.title Member.set_borrowed_books Member.name].
    now apply (return_done _ _ _ book).
  - now apply (return_not_held _ _ _ book).
Qed.

(** Case analysis on the way a call of [issue_book] or [return_book] ends. *)
Ltac issue_cases w isbn member :=
  generalize (issue_book_result w isbn member);
  generalize (issue_book w isbn member);
  let r := fresh "r" in let Hr := fresh "Hr" in
  intros r Hr; destruct Hr as [? | ? ? ? | ? ? ? ? | ? ? ? ?].

Ltac return_cases w isbn member :=
  generalize (return_book_result w isbn member);
  generalize (return_book w isbn member);
  let r := fresh "r" in let Hr := fresh "Hr" in
  intros r Hr; destruct Hr as [? | ? ? ? | ? ? ?].

(** Two lookups of one key find one object. *)
Ltac same_book :=
  repeat match goal with
  | H1 : get_book ?w ?i = Some ?a, H2 : get_book ?w ?i = Some ?b |- _ =>
      assert (b = a) by congruence; subst b; clear H2
  end.

Ltac crush_cases :=
  repeat match goal with
  | |- _ /\ _ => split
  | |- _ <-> _ => split
  | |- forall _, _ => intro
  | H : exists _, _ |- _ => destruct H
  | H : _ /\ _ |- _ => destruct H
  end;
  same_book;
  try discriminate; try congruence; try lia; try reflexivity.



(** C3. When [issue_book] or [return_book] reports failure, the state it
    leaves is the state it was given: both object stores and the library are
    untouched, so every book's copies and every member's borrowed list are
    as before. *)
Theorem failure_leaves_state_unchanged (w : World) (isbn : string) (member : addr) :
  (fst (snd (issue_book w isbn member)) = false ->
   fst (issue_book w isbn member) = w)
  /\ (fst (snd (return_book w isbn member)) = false ->
      fst (return_book w isbn member) = w).
Proof.
  split.
  - issue_cases w isbn member; cbn [fst snd]; congruence.
  - return_cases w isbn member; cbn [fst snd]; congruence.
Qed.

(** C3 on the sample catalogue: issuing an ISBN that is not catalogued and
    returning a book the member does not hold both leave the state alone. *)
Lemma failure_leaves_state_unchanged_sample :
  fst (issue_book sample_world "999" 0%nat) = sample_world
  /\ fst (return_book sample_world "123" 0%nat) = sample_world.
Proof.
  split.
  - apply (proj1 (failure_leaves_state_unchanged sample_world "999" 0%nat)).
    reflexivity.
  - apply (proj2 (failure_leaves_state_unchanged sample_world "123" 0%nat)).
    reflexivity.
Defined.

Lemma issued_returned_same_state (w : World) (book member : addr) (isbn : string) :
  Member.has_book (member_obj w member) isbn = false ->
  same_state (returned (issued w book member isbn) book member isbn) w.
Proof.
  intros Hh. unfold same_state, returned, issued. cbn.
  split; [reflexivity|]. split; intros a.
  - rewrite !store_set_same. unfold store_set.
    destruct (Nat.eqb a book) eqn:E; [|reflexivity].
    apply Nat.eqb_eq in E. subst a.
    destruct (book_obj w book) as [i t au c]. cbn. f_equal. lia.
  - rewrite !store_set_same. unfold store_set.
    destruct (Nat.eqb a member) eqn:E; [|reflexivity].
    apply Nat.eqb_eq in E. subst a.
    unfold Member.has_book in Hh.
    destruct (member_obj w member) as [i n l]. cbn in *.
    now rewrite list_remove_snoc.
Qed.

(** C4. Under the issue preconditions (the book exists, has a copy, and the
    member does not hold the ISBN), [issue_book] succeeds and lowers the
    book's copies by one, the [return_book] that follows succeeds and raises
    them by one, and the state after both has the book's original copies, the
    member's original borrowed list and, at every address, the original
    objects. *)
Theorem issue_then_return_identity
  (w : World) (isbn : string) (member book : addr) :
  get_book w isbn = Some book ->
  0 < Book.copies (book_obj w book) ->
  Member.has_book (member_obj w member) isbn = false ->
  fst (snd (issue_book w isbn member)) = true
  /\ fst (snd (return_book (fst (issue_book w isbn member)) isbn member)) = true
  /\ Book.copies (book_obj (fst (issue_book w isbn member)) book)
     = Book.copies (book_obj w book) - 1
  /\ Book.copies
       (book_obj (fst (return_book (fst (issue_book w isbn member)) isbn member)) book)
     = Book.copies (book_obj (fst (issue_book w isbn member)) book) + 1
  /\ Book.copies
       (book_obj (fst (return_book (fst (issue_book w isbn member)) isbn member)) book)
     = Book.copies (book_obj w book)
  /\ Member.borrowed_books
       (member_obj (fst (return_book (fst (issue_book w isbn member)) isbn member))
                   member)
     = Member.borrowed_books (member_obj w member)
  /\ same_state (fst (return_book (fst (issue_book w isbn member)) isbn member)) w.
Proof.
  intros Hb Hc Hh.
  pose proof (issued_returned_same_state w book member isbn Hh) as Hsame.
  issue_cases w isbn member; same_book; try congruence; try lia.
  cbn [fst snd].
  assert (Hh1 : Member.has_book (member_obj (issued w book member isbn) member) isbn
                = true).
  { cbn. rewrite store_set_same. unfold Member.has_book. cbn.
    rewrite list_contains_snoc, String.eqb_refl. apply orb_true_r. }
  assert (Hb1 : get_book (issued w book member isbn) isbn = Some book) by exact Hb.
  return_cases (issued w book member isbn) isbn member; same_book; try congruence.
  cbn [fst snd]. destruct Hsame as (Hl & Hbs & Hms).
  repeat split; try assumption.
  - cbn. now rewrite !store_set_same.
  - cbn. now rewrite !store_set_same.
  - now rewrite Hbs.
  - now rewrite Hms.
Qed.

(** A run of C4 on the sample catalogue: the registered member borrows and
    returns the book with ISBN 123. *)
Lemma issue_then_return_identity_sample :
  fst (snd (issue_book sample_world "123" 0%nat)) = true
  /\ Book.copies
       (book_obj (fst (return_book (fst (issue_book sample_world "123" 0%nat))
                                   "123" 0%nat)) 0%nat) = 2
  /\ Member.borrowed_books
       (member_obj (fst (return_book (fst (issue_book sample_world "123" 0%nat))
                                     "123" 0%nat)) 0%nat) = [].
Proof.
  assert (H1 : get_book sample_world "123" = Some 0%nat) by reflexivity.
  assert (H2 : 0 < Book.copies (book_obj sample_world 0%nat)) by (vm_compute; reflexivity).
  assert (H3 : Member.has_book (member_obj sample_world 0%nat) "123" = false)
    by reflexivity.
  destruct (issue_then_return_identity sample_world "123" 0%nat 0%nat H1 H2 H3)
    as (Hs & _ & _ & _ & Hc & Hl & _).
  split; [exact Hs|]. split; [exact Hc | exact Hl].
Defined.

(** ** Conservation of the per-ISBN total *)

Lemma holders_issued_same (w : World) (book member : addr) (isbn : string) :
  List.NoDup (list_members w) -> In member (list_members w) ->
  Member.has_book (member_obj w member) isbn = false ->
  holders (issued w book member isbn) isbn = S (holders w isbn).
Proof.
  intros Hnd Hin Hh. unfold holders.
  pose proof (count_change_at
                (fun m => Member.has_book (member_obj w m) isbn)
                (fun m => Member.has_book (member_obj (issued w book member isbn) m) isbn)
                (list_members w) member Hnd Hin) as Hcount.
  cbv beta in Hcount. rewrite Hh in Hcount.
  assert (Hnew : Member.has_book (member_obj (issued w book member isbn) member) isbn
                 = true).
  { cbn. rewrite store_set_same. unfold Member.has_book. cbn.
    rewrite list_contains_snoc, String.eqb_refl. apply orb_true_r. }
  rewrite Hnew in Hcount.
  change (list_members (issued w book member isbn)) with (list_members w).
  rewrite Nat.add_0_r in Hcount. rewrite Hcount; [lia|].
  intros x Hx. cbn. now rewrite store_set_other.
Qed.

Lemma holders_issued_other (w : World) (book member : addr) (isbn i : string) :
  i <> isbn -> holders (issued w book member isbn) i = holders w i.
Proof.
  intros Hne. unfold holders.
  change (list_members (issued w book member isbn)) with (list_members w).
  f_equal. apply List.filter_ext. intros x. cbn. unfold store_set.
  destruct (Nat.eqb x member) eqn:E; [|reflexivity].
  apply Nat.eqb_eq in E. subst x. unfold Member.has_book. cbn.
  rewrite list_contains_snoc. apply String.eqb_neq in Hne. rewrite Hne.
  apply orb_false_r.
Qed.

Lemma holders_returned_same (w : World) (book member : addr) (isbn : string) :
  List.NoDup (list_members w) -> In member (list_members w) ->
  List.NoDup (Member.borrowed_books (member_obj w member)) ->
  Member.has_book (member_obj w member) isbn = true ->
  S (holders (returned w book member isbn) isbn) = holders w isbn.
Proof.
  intros Hnd Hin Hbl Hh. unfold holders.
  pose proof (count_change_at
                (fun m => Member.has_book (member_obj w m) isbn)
                (fun m => Member.has_book (member_obj (returned w book member isbn) m) isbn)
                (list_members w) member Hnd Hin) as Hcount.
  cbv beta in Hcount. rewrite Hh in Hcount.
  assert (Hnew : Member.has_book (member_obj (returned w book member isbn) member) isbn
                 = false).
  { cbn. rewrite store_set_same. unfold Member.has_book. cbn.
    now apply list_contains_remove_same. }
  rewrite Hnew in Hcount.
  change (list_members (returned w book member isbn)) with (list_members w).
  rewrite Nat.add_0_r in Hcount. rewrite <- Hcount; [lia|].
  intros x Hx. cbn. now rewrite store_set_other.
Qed.

Lemma holders_returned_other (w : World) (book member : addr) (isbn i : string) :
  i <> isbn -> holders (returned w book member isbn) i = holders w i.
Proof.
  intros Hne. unfold holders.
  change (list_members (returned w book member isbn)) with (list_members w).
  f_equal. apply List.filter_ext. intros x. cbn. unfold store_set.
  destruct (Nat.eqb x member) eqn:E; [|reflexivity].
  apply Nat.eqb_eq in E. subst x. unfold Member.has_book. cbn.
  now apply list_contains_remove_other.
Qed.

(** The book found under another ISBN is another object. *)
Lemma other_isbn_other_book (w : World) (i isbn : string) (b book : addr) :
  List.NoDup (list_books w) -> i <> isbn ->
  get_book w i = Some b -> get_book w isbn = Some book -> b <> book.
Proof.
  intros Hnd Hne Hi Hisbn ->. apply Hne.
  exact (dict_get_inj (books (lib w)) i isbn book Hnd Hi Hisbn).
Qed.

Lemma issued_conserves (w : World) (book member : addr) (isbn : string) :
  well_formed w -> registered w member ->
  get_book w isbn = Some book ->
  Member.has_book (member_obj w member) isbn = false ->
  conserves_totals (fun w => issued w book member isbn) w.
Proof.
  intros [Hbs Hms Hbl] Hreg Hb Hh i Hi. unfold total_copies.
  change (get_book (issued w book member isbn) i) with (get_book w i).
  destruct (get_book w i) as [b|] eqn:Hbi; [|reflexivity]. f_equal.
  destruct (String.eqb_spec i isbn) as [->|Hne].
  - assert (b = book) by congruence. subst b.
    rewrite holders_issued_same by assumption.
    cbn. rewrite store_set_same. cbn. lia.
  - rewrite holders_issued_other by assumption.
    cbn. rewrite store_set_other; [reflexivity|].
    now apply (other_isbn_other_book w i isbn).
Qed.

Lemma returned_conserves (w : World) (book member : addr) (isbn : string) :
  well_formed w -> registered w member ->
  get_book w isbn = Some book ->
  Member.has_book (member_obj w member) isbn = true ->
  conserves_totals (fun w => returned w book member isbn) w.
Proof.
  intros [Hbs Hms Hbl] Hreg Hb Hh i Hi. unfold total_copies.
  change (get_book (returned w book member isbn) i) with (get_book w i).
  destruct (get_book w i) as [b|] eqn:Hbi; [|reflexivity]. f_equal.
  destruct (String.eqb_spec i isbn) as [->|Hne].
  - assert (b = book) by congruence. subst b.
    pose proof (holders_returned_same w book member isbn Hms Hreg (Hbl _ Hreg) Hh).
    cbn. rewrite store_set_same. cbn. lia.
  - rewrite holders_returned_other by assumption.
    cbn. rewrite store_set_other; [reflexivity|].
    now apply (other_isbn_other_book w i isbn).
Qed.

Lemma issue_book_conserves (w : World) (isbn : string) (member : addr) :
  well_formed w -> registered w member ->
  conserves_totals (fun w => fst (issue_book w isbn member)) w.
Proof.
  intros Hwf Hreg. unfold conserves_totals. cbv beta.
  issue_cases w isbn member; cbn [fst]; intros i Hi; try reflexivity.
  now apply (issued_conserves w book member isbn).
Qed.

Lemma return_book_conserves (w : World) (isbn : string) (member : addr) :
  well_formed w -> registered w member ->
  conserves_totals (fun w => fst (return_book w isbn member)) w.
Proof.
  intros Hwf Hreg. unfold conserves_totals. cbv beta.
  return_cases w isbn member; cbn [fst]; intros i Hi; try reflexivity.
  now apply (returned_conserves w book member isbn).
Qed.

(** X6. The wrappers that look the member up by id only ever pass a
    registered member, so [issue_book_by_id] and [return_book_by_id] conserve
    the per-ISBN totals of a well-formed catalogue for every id, registered
    or not. *)
Lemma by_id_calls_conserve (w : World) (isbn member_id : string) :
  well_formed w ->
  conserves_totals (fun w => fst (issue_book_by_id w isbn member_id)) w
  /\ conserves_totals (fun w => fst (return_book_by_id w isbn member_id)) w.
Proof.
  intros Hwf. unfold issue_book_by_id, return_book_by_id.
  destruct (get_member w member_id) as [member|] eqn:Hm.
  - assert (Hreg : registered w member)
      by (exact (dict_get_In _ _ _ Hm)).
    split.
    + intros i Hi. generalize (issue_book_conserves w isbn member Hwf Hreg i Hi).
      cbv beta. unfold get_member in *. now rewrite Hm.
    + intros i Hi. generalize (return_book_conserves w isbn member Hwf Hreg i Hi).
      cbv beta. unfold get_member in *. now rewrite Hm.
  - split; intros i Hi; cbv beta; unfold get_member in *; now rewrite Hm.
Qed.

(** C1, as the code has it.  In a well-formed catalogue (every dictionary key
    holds an object of its own, no borrowed list repeats an ISBN), for a
    member object that is registered in the library's members dictionary,
    every call of [issue_book] and of [return_book], successful or failed,
    leaves [book.copies] plus the number of registered members holding the
    ISBN unchanged, for every ISBN of the books dictionary. *)
Theorem total_copies_conserved (w : World) (isbn : string) (member : addr) :
  well_formed w -> registered w member ->
  conserves_totals (fun w => fst (issue_book w isbn member)) w
  /\ conserves_totals (fun w => fst (return_book w isbn member)) w.
Proof.
  intros Hwf Hreg. split.
  - now apply issue_book_conserves.
  - now apply return_book_conserves.
Qed.

Lemma sample_world_well_formed : well_formed sample_world.
Proof.
  constructor.
  - cbn. repeat constructor. intros [].
  - cbn. repeat constructor. intros [].
  - intros m [<-|[]]. cbn. constructor.
Defined.

(** C1 on the sample catalogue: the registered member at address 0 and
    ISBN 123. *)
Lemma total_copies_conserved_sample :
  conserves_totals (fun w => fst (issue_book w "123" 0%nat)) sample_world
  /\ conserves_totals (fun w => fst (return_book w "123" 0%nat)) sample_world.
Proof.
  apply (total_copies_conserved sample_world "123" 0%nat).
  - exact sample_world_well_formed.
  - left. reflexivity.
Defined.

(** C1 as stated fails for a member object that was never added to the
    library: in the well-formed sample catalogue, issuing ISBN 123 to the
    member at address 1 takes a copy off the book while no registered member
    holds it, so the total drops from 2 to 1. *)
Lemma total_copies_not_conserved_unregistered :
  well_formed sample_world
  /\ get_book sample_world "123" = Some 0%nat
  /\ fst (snd (issue_book sample_world "123" 1%nat)) = true
  /\ total_copies sample_world "123" = Some 2
  /\ total_copies (fst (issue_book sample_world "123" 1%nat)) "123" = Some 1
  /\ ~ conserves_totals (fun w => fst (issue_book w "123" 1%nat)) sample_world.
Proof.
  split; [exact sample_world_well_formed|].
  split; [reflexivity|]. split; [reflexivity|].
  split; [reflexivity|]. split; [reflexivity|].
  intros H. specialize (H "123"). cbv beta in H.
  assert (E : total_copies (fst (issue_book sample_world "123" 1%nat)) "123"
              = total_copies sample_world "123").
  { apply H. discriminate. }
  discriminate E.
Qed.

(** ** Search *)







(** The accumulating loop of the searches is a filter. *)
Lemma collect_loop_filter (keep : addr -> bool) (l acc : list addr) :
  List.fold_left (fun matching book => if keep book then (matching ++ [book])%list
                                       else matching) l acc
  = (acc ++ List.filter keep l)%list.
Proof.
  revert acc. induction l as [|b l IH]; intros acc; simpl.
  - now rewrite List.app_nil_r.
  - rewrite IH. destruct (keep b); [|reflexivity].
    now rewrite <- List.app_assoc.
Qed.




(** C10. A non-empty query with a search type other than all, title, author
    and isbn gives the empty list, and so does the empty query with any
    search type. *)
Theorem search_books_unknown_type_or_empty_query
  (w : World) (query search_type : string) :
  (query <> EmptyString ->
   search_type <> "all" -> search_type <> "title" ->
   search_type <> "author" -> search_type <> "isbn" ->
   search_books w query search_type = [])
  /\ search_books w EmptyString search_type = [].
Proof.
  split; [|reflexivity].
  intros Hq Hall Htitle Hauthor Hisbn. unfold search_books.
  destruct query as [|c q]; [contradiction|]. cbn [str_truthy negb].
  apply String.eqb_neq in Hall, Htitle, Hauthor, Hisbn.
  unfold list_contains. cbn [List.existsb].
  now rewrite Hall, Htitle, Hauthor, Hisbn.
Qed.

(** C10 on the three-book catalogue: a search type that is not one of the
    four finds nothing, and neither does the empty query. *)
Lemma search_books_unknown_type_sample :
  search_books search_world "Python" "publisher" = []
  /\ search_books search_world EmptyString "title" = [].
Proof.
  split.
  - apply (proj1 (search_books_unknown_type_or_empty_query
                    search_world "Python" "publisher")); discriminate.
  - apply (proj2 (search_books_unknown_type_or_empty_query
                    search_world "Python" "title")).
Defined.

(** The search of the specification's example: two titles contain the query,
    whatever the letter case, and come back in insertion order. *)
Example search_by_title_python :
  search_by_title search_world "Python" = [0%nat; 1%nat]
  /\ search_by_title search_world "pYTHON" = [0%nat; 1%nat]
  /\ search_books search_world "Python" "all" = [0%nat; 1%nat; 2%nat]
  /\ search_books search_world "Python" "publisher" = []
  /\ search_available_books search_world "Python" "all" = [0%nat; 2%nat].
Proof. repeat split; reflexivity. Qed.

(** ** Sessions *)

(** C5. [validate_session] answers (False, None) for a token that is not in
    the session store, and for a session whose expiry the clock has passed;
    in the second case the call also deletes that entry and no other.  It
    answers (True, username) only for a token that is in the store with an
    expiry the clock has not passed, and then leaves the store as it is. *)
Theorem validate_session_fails_closed (a : AuthSystem) (now : Z) (token : string) :
  (sessions a !! token = None ->
   validate_session a now token = (a, (false, None)))
  /\ (forall s,
        sessions a !! token = Some s -> Session.expires_at s < now ->
        snd (validate_session a now token) = (false, None)
        /\ fst (validate_session a now token)
           = set_sessions a (delete token (sessions a))
        /\ sessions (fst (validate_session a now token)) !! token = None
        /\ (forall other, other <> token ->
              sessions (fst (validate_session a now token)) !! other
              = sessions a !! other))
  /\ (fst (snd (validate_session a now token)) = true ->
      exists s,
        sessions a !! token = Some s
        /\ now <= Session.expires_at s
        /\ validate_session a now token = (a, (true, Some (Session.username s)))).
Proof.
  unfold validate_session. split; [|split].
  - intros ->. reflexivity.
  - intros s -> Hlt. apply Z.ltb_lt in Hlt. rewrite Hlt. cbn.
    split; [reflexivity|]. split; [reflexivity|]. split.
    + apply lookup_delete_eq.
    + intros other Hne. now apply lookup_delete_ne.
  - destruct (sessions a !! token) as [s|]; [|discriminate].
    destruct (Z.ltb_spec (Session.expires_at s) now); [discriminate|].
    intros _. now exists s.
Qed.

(** C5 on the sample session (created at time 1000, expiring at 1800001000):
    an unknown token is refused, and one microsecond after the expiry the
    token is refused and its entry is gone. *)
Lemma validate_session_fails_closed_sample :
  validate_session sample_auth_session 2000 "no-such-token"
  = (sample_auth_session, (false, None))
  /\ snd (validate_session sample_auth_session 1800001001 "token-1") = (false, None)
  /\ sessions (fst (validate_session sample_auth_session 1800001001 "token-1"))
       !! "token-1" = None.
Proof.
  split.
  - apply (proj1 (validate_session_fails_closed sample_auth_session 2000
                    "no-such-token")).
    vm_compute. reflexivity.
  - assert (Hs : sessions sample_auth_session !! "token-1"
                 = Some (Session.mk "librarian" 1000 1800001000))
      by (vm_compute; reflexivity).
    assert (Hlt : Session.expires_at (Session.mk "librarian" 1000 1800001000)
                  < 1800001001) by (cbn; lia).
    destruct (proj1 (proj2 (validate_session_fails_closed sample_auth_session
                              1800001001 "token-1")) _ Hs Hlt)
      as (Hr & _ & Hgone & _).
    split; [exact Hr | exact Hgone].
Defined.

(** After [logout], the token no longer validates. *)
Lemma logout_invalidates (a : AuthSystem) (now : Z) (token : string) :
  snd (validate_session (fst (logout a token)) now token) = (false, None).
Proof.
  unfold logout. destruct (sessions a !! token) as [s|] eqn:E; cbn.
  - unfold validate_session. cbn. now rewrite lookup_delete_eq.
  - unfold validate_session. now rewrite E.
Qed.

Lemma fold_delete_lookup_notin (l : list string) (m : gmap string Session.t)
  (k : string) :
  ~ In k l -> List.fold_left (fun s token => delete token s) l m !! k = m !! k.
Proof.
  revert m. induction l as [|t l IH]; intros m Hnin; simpl; [reflexivity|].
  rewrite IH.
  - apply lookup_delete_ne. intros ->. apply Hnin. now left.
  - intros H. apply Hnin. now right.
Qed.

Lemma fold_delete_lookup_in (l : list string) (m : gmap string Session.t)
  (k : string) :
  In k l -> List.fold_left (fun s token => delete token s) l m !! k = None.
Proof.
  revert m. induction l as [|t l IH]; intros m; simpl; [intros []|].
  destruct (List.in_dec String.string_dec k l) as [Hin|Hnin].
  - intros _. now apply IH.
  - intros [->|Hin]; [|contradiction].
    rewrite fold_delete_lookup_notin by assumption. apply lookup_delete_eq.
Qed.

(** The tokens [cleanup_expired_sessions] collects are those of the sessions
    whose expiry the clock has passed. *)
Lemma expired_tokens_spec (m : gmap string Session.t) (now : Z) (k : string) :
  In k (List.map fst
          (List.filter (fun ts => Session.expires_at (snd ts) <? now) (map_to_list m)))
  <-> exists s, m !! k = Some s /\ Session.expires_at s < now.
Proof.
  rewrite List.in_map_iff. split.
  - intros ([k' s] & Hk & Hin). cbn in Hk. subst k'.
    apply List.filter_In in Hin as [Hin Hlt]. cbn in Hlt.
    exists s. split; [|now apply Z.ltb_lt].
    apply elem_of_map_to_list. now apply list_elem_of_In.
  - intros (s & Hs & Hlt). exists (k, s). split; [reflexivity|].
    apply List.filter_In. split.
    + apply list_elem_of_In. now apply elem_of_map_to_list.
    + cbn. now apply Z.ltb_lt.
Qed.

Lemma cleanup_expired_sessions_lookup (a : AuthSystem) (now : Z) (token : string) :
  sessions (fst (cleanup_expired_sessions a now)) !! token
  = match sessions a !! token with
    | Some s => if Session.expires_at s <? now then None else Some s
    | None => None
    end.
Proof.
  unfold cleanup_expired_sessions. cbn [fst sessions set_sessions].
  destruct (sessions a !! token) as [s|] eqn:E.
  - destruct (Z.ltb_spec (Session.expires_at s) now) as [Hlt|Hge].
    + apply fold_delete_lookup_in. apply expired_tokens_spec. now exists s.
    + rewrite fold_delete_lookup_notin; [exact E|].
      intros H. apply expired_tokens_spec in H as (s' & Hs' & Hlt).
      assert (s' = s) by congruence. subst. lia.
  - rewrite fold_delete_lookup_notin; [exact E|].
    intros H. apply expired_tokens_spec in H as (s' & Hs' & _). congruence.
Qed.

(** C9. Expiry is a strict boundary.  A session whose expiry equals the
    clock reading still validates as (True, username) and stays in the
    store; [validate_session] rejects a stored session exactly when the clock
    is strictly past its expiry; and [cleanup_expired_sessions] removes a
    stored session exactly in that case, so it keeps a session whose expiry
    equals the clock reading. *)
Theorem expiry_boundary_is_strict
  (a : AuthSystem) (now : Z) (token : string) (s : Session.t) :
  sessions a !! token = Some s ->
  (Session.expires_at s = now ->
   validate_session a now token = (a, (true, Some (Session.username s))))
  /\ (fst (snd (validate_session a now token)) = false
      <-> Session.expires_at s < now)
  /\ (Session.expires_at s = now ->
      sessions (fst (cleanup_expired_sessions a now)) !! token = Some s)
  /\ (sessions (fst (cleanup_expired_sessions a now)) !! token = None
      <-> Session.expires_at s < now).
Proof.
  intros Hs. rewrite cleanup_expired_sessions_lookup. unfold validate_session.
  rewrite Hs. destruct (Z.ltb_spec (Session.expires_at s) now) as [Hlt|Hge]; cbn.
  - repeat split; intros; try lia; try reflexivity; try discriminate.
  - repeat split; intros; try lia; try reflexivity; try discriminate.
Qed.

(** C9 on the sample session, created at time 1000 with the default timeout
    and read at the instant it expires. *)
Lemma expiry_boundary_is_strict_sample :
  validate_session sample_auth_session 1800001000 "token-1"
  = (sample_auth_session, (true, Some "librarian"))
  /\ sessions (fst (cleanup_expired_sessions sample_auth_session 1800001000))
       !! "token-1"
     = Some (Session.mk "librarian" 1000 1800001000).
Proof.
  assert (Hs : sessions sample_auth_session !! "token-1"
               = Some (Session.mk "librarian" 1000 1800001000))
    by (vm_compute; reflexivity).
  destruct (expiry_boundary_is_strict sample_auth_session 1800001000 "token-1"
              (Session.mk "librarian" 1000 1800001000) Hs)
    as (Hv & _ & Hc & _).
  split; [apply Hv; reflexivity | apply Hc; reflexivity].
Defined.



(** A session for a name the credential store does not know is created and
    validates. *)
Example create_session_unknown_user :
  users sample_auth !! "ghost" = None
  /\ snd (validate_session
            (fst (create_session sample_auth "token-2" 5000 5001 "ghost"))
            6000 "token-2")
     = (true, Some "ghost").
Proof. split; vm_compute; reflexivity. Qed.


(** ** Passwords *)

Section Passwords.

Variable hash_password : string -> string.

Lemma authenticate_success_iff (a : AuthSystem) (now : Z) (username password : string) :
  fst (snd (authenticate hash_password a now username password)) = true
  <-> exists user,
        users a !! username = Some user
        /\ User.password user = hash_password password.
Proof.
  unfold authenticate. destruct (users a !! username) as [user|].
  - destruct (String.eqb_spec (User.password user) (hash_password password)) as [E|N];
      cbn.
    + split; [|reflexivity]. intros _. now exists user.
    + split; [discriminate|]. intros (user' & [= ->] & E). contradiction.
  - cbn. split; [discriminate|]. intros (user & H & _). discriminate H.
Qed.

(** C7. [change_password] returns (it does not raise), and its success flag
    is the success flag of [authenticate] with the old password on the same
    state: the password is replaced only after that re-authentication.
    After a successful change, when the old and the new password have
    different digests, authenticating with the old password fails and
    authenticating with the new one succeeds. *)
Theorem change_password_spec
  (a : AuthSystem) (now : Z) (username old_password new_password : string) :
  exists a' msg,
    change_password hash_password a now username old_password new_password
    = Returns (a', (fst (snd (authenticate hash_password a now username old_password)),
                    msg))
    /\ (fst (snd (authenticate hash_password a now username old_password)) = false ->
        a' = a)
    /\ (fst (snd (authenticate hash_password a now username old_password)) = true ->
        hash_password old_password <> hash_password new_password ->
        forall now',
          fst (snd (authenticate hash_password a' now' username old_password)) = false
          /\ fst (snd (authenticate hash_password a' now' username new_password)) = true).
Proof.
  unfold change_password, authenticate.
  destruct (users a !! username) as [user|] eqn:Hu.
  - destruct (String.eqb_spec (User.password user) (hash_password old_password))
      as [E|N]; cbn.
    + rewrite lookup_insert_eq. eexists _, _. split; [reflexivity|].
      split; [discriminate|]. intros _ Hdiff now'.
      cbn [users set_users]. rewrite lookup_insert_eq. cbn.
      rewrite String.eqb_refl.
      assert (Hneq : String.eqb (hash_password new_password)
                                (hash_password old_password) = false).
      { apply String.eqb_neq. congruence. }
      rewrite Hneq. cbn. split; reflexivity.
    + eexists _, _. split; [reflexivity|]. split; [reflexivity|]. discriminate.
  - cbn. eexists _, _. split; [reflexivity|]. split; [reflexivity|]. discriminate.
Qed.

End Passwords.

(** C7 on the default librarian account: the change goes through with the
    right old password, after which the old password is refused and the new
    one accepted; with a wrong old password the change is refused and the
    state kept. *)
Lemma change_password_spec_sample :
  (exists a' msg,
     change_password sample_digest sample_auth 10 "librarian" "admin123" "s3cret"
     = Returns (a', (true, msg))
     /\ fst (snd (authenticate sample_digest a' 20 "librarian" "admin123")) = false
     /\ fst (snd (authenticate sample_digest a' 20 "librarian" "s3cret")) = true)
  /\ (exists msg,
        change_password sample_digest sample_auth 10 "librarian" "wrong" "s3cret"
        = Returns (sample_auth, (false, msg))).
Proof.
  split.
  - destruct (change_password_spec sample_digest sample_auth 10
                "librarian" "admin123" "s3cret") as (a' & msg & Heq & _ & Hafter).
    assert (Hok : fst (snd (authenticate sample_digest sample_auth 10
                              "librarian" "admin123")) = true)
      by (vm_compute; reflexivity).
    assert (Hdiff : sample_digest "admin123" <> sample_digest "s3cret")
      by (vm_compute; discriminate).
    exists a', msg. rewrite Hok in Heq. split; [exact Heq|].
    exact (Hafter Hok Hdiff 20).
  - destruct (change_password_spec sample_digest sample_auth 10
                "librarian" "wrong" "s3cret") as (a' & msg & Heq & Hkeep & _).
    assert (Hko : fst (snd (authenticate sample_digest sample_auth 10
                              "librarian" "wrong")) = false)
      by (vm_compute; reflexivity).
    exists msg. rewrite Hko in Heq. rewrite (Hkeep Hko) in Heq. exact Heq.
Defined.

(** ** Scenarios of the specification *)

(** End to end: a catalogue with Book("123", "T1", "A1", 2) and the member
    M1.  The first issue leaves one copy and the ISBN in the borrowed list,
    the second issue is refused because the member holds the book, and the
    return restores two copies and an empty list; a second return is
    refused. *)
Example end_to_end_scenario :
  let w1 := fst (issue_book_by_id sample_world "123" "M1") in
  let w2 := fst (issue_book_by_id w1 "123" "M1") in
  let w3 := fst (return_book_by_id w2 "123" "M1") in
  snd (issue_book_by_id sample_world "123" "M1") = (true, "Book 'T1' issued to N1")
  /\ Book.copies (book_obj w1 0%nat) = 1
  /\ Member.borrowed_books (member_obj w1 0%nat) = ["123"]
  /\ snd (issue_book_by_id w1 "123" "M1") = (false, AlreadyHeld w1 0%nat)
  /\ snd (return_book_by_id w2 "123" "M1") = (true, "Book 'T1' returned by N1")
  /\ Book.copies (book_obj w3 0%nat) = 2
  /\ Member.borrowed_books (member_obj w3 0%nat) = []
  /\ snd (return_book_by_id w3 "123" "M1") = (false, NotHeld w3 0%nat)
  /\ snd (issue_book_by_id sample_world "123" "M7")
     = (false, "Member with ID M7 not found").
Proof. cbv zeta. repeat split; reflexivity. Qed.

(** Session lifecycle: a session created with the 30-minute timeout is valid
    at once and at its expiry instant, invalid after it, and invalid after
    logout. *)
Example session_lifecycle :
  snd (validate_session sample_auth_session 1000 "token-1") = (true, Some "librarian")
  /\ snd (validate_session sample_auth_session 1800001000 "token-1")
     = (true, Some "librarian")
  /\ snd (validate_session sample_auth_session 1800001001 "token-1") = (false, None)
  /\ snd (logout sample_auth_session "token-1") = true
  /\ snd (validate_session (fst (logout sample_auth_session "token-1")) 1000 "token-1")
     = (false, None)
  /\ snd (cleanup_expired_sessions sample_auth_session 1800001000) = 0%nat
  /\ snd (cleanup_expired_sessions sample_auth_session 1800001001) = 1%nat.
Proof. repeat split; vm_compute; reflexivity. Qed.

(** * Further properties of the code *)

(** ** Returning, and issuing or returning twice *)

(** X1. [return_book] succeeds exactly when the book exists and the member
    holds the ISBN.  On success the state is the old one with that book's
    copies raised by one and the first occurrence of the ISBN removed from
    the member's borrowed list.  Otherwise the call fails: with the not-found
    message when the book is missing, even if the member holds the ISBN, and
    with the does-not-have message when the book exists and the member does
    not hold it. *)
Theorem return_book_spec (w : World) (isbn : string) (member : addr) :
  (fst (snd (return_book w isbn member)) = true <->
   exists book,
     get_book w isbn = Some book /\
     Member.has_book (member_obj w member) isbn = true)
  /\ (forall book,
        get_book w isbn = Some book ->
        fst (snd (return_book w isbn member)) = true ->
        fst (return_book w isbn member) = returned w book member isbn /\
        Book.copies (book_obj (fst (return_book w isbn member)) book)
        = Book.copies (book_obj w book) + 1 /\
        Member.borrowed_books (member_obj (fst (return_book w isbn member)) member)
        = list_remove (Member.borrowed_books (member_obj w member)) isbn)
  /\ (get_book w isbn = None ->
      snd (return_book w isbn member) = (false, NotFound isbn))
  /\ (forall book,
        get_book w isbn = Some book ->
        Member.has_book (member_obj w member) isbn = false ->
        snd (return_book w isbn member) = (false, NotHeld w member)).
Proof.
  return_cases w isbn member; cbn [fst snd]; crush_cases.
  all: try (eexists; eauto).
  all: cbn; now rewrite store_set_same.
Qed.

(** X1 on the sample catalogue after one issue: the return succeeds and
    gives the second copy back; returning an ISBN that is not catalogued is
    refused with the not-found message. *)
Lemma return_book_spec_sample :
  fst (snd (return_book (fst (issue_book sample_world "123" 0%nat)) "123" 0%nat)) = true
  /\ Book.copies
       (book_obj (fst (return_book (fst (issue_book sample_world "123" 0%nat))
                                   "123" 0%nat)) 0%nat) = 2
  /\ snd (return_book sample_world "999" 0%nat) = (false, NotFound "999").
Proof.
  destruct (return_book_spec (fst (issue_book sample_world "123" 0%nat)) "123" 0%nat)
    as (Hiff & Hok & _).
  destruct (return_book_spec sample_world "999" 0%nat) as (_ & _ & Hnf & _).
  assert (Hs : fst (snd (return_book (fst (issue_book sample_world "123" 0%nat))
                                     "123" 0%nat)) = true).
  { apply Hiff. exists 0%nat. split; reflexivity. }
  destruct (Hok 0%nat eq_refl Hs) as (_ & Hc & _).
  split; [exact Hs|]. split; [exact Hc|]. apply Hnf. reflexivity.
Defined.

Lemma has_book_issued (w : World) (book member : addr) (isbn : string) :
  Member.has_book (member_obj (issued w book member isbn) member) isbn = true.
Proof.
  cbn. rewrite store_set_same. unfold Member.has_book. cbn.
  rewrite list_contains_snoc, String.eqb_refl. apply orb_true_r.
Qed.

Lemma copies_issued (w : World) (book member : addr) (isbn : string) :
  Book.copies (book_obj (issued w book member isbn) book)
  = Book.copies (book_obj w book) - 1.
Proof. cbn. now rewrite store_set_same. Qed.

(** X2. No double borrow.  After a successful [issue_book], issuing the same
    ISBN to the same member again fails and changes nothing; the reason is
    that the member already has the book when a copy is left, and that no
    copy is left when the first issue took the last one. *)
Theorem second_issue_is_refused
  (w : World) (isbn : string) (member book : addr) :
  get_book w isbn = Some book ->
  fst (snd (issue_book w isbn member)) = true ->
  fst (snd (issue_book (fst (issue_book w isbn member)) isbn member)) = false
  /\ fst (issue_book (fst (issue_book w isbn member)) isbn member)
     = fst (issue_book w isbn member)
  /\ (1 < Book.copies (book_obj w book) ->
      snd (issue_book (fst (issue_book w isbn member)) isbn member)
      = (false, AlreadyHeld (fst (issue_book w isbn member)) member))
  /\ (Book.copies (book_obj w book) = 1 ->
      snd (issue_book (fst (issue_book w isbn member)) isbn member)
      = (false, Unavailable (fst (issue_book w isbn member)) book)).
Proof.
  intros Hb. issue_cases w isbn member; cbn [fst snd]; try discriminate.
  intros _. same_book.
  pose proof (has_book_issued w book member isbn) as Hh1.
  pose proof (copies_issued w book member isbn) as Hc1.
  assert (Hb1 : get_book (issued w book member isbn) isbn = Some book) by exact Hb.
  issue_cases (issued w book member isbn) isbn member; cbn [fst snd]; same_book;
    try congruence.
  - repeat split; try reflexivity; intros; lia.
  - repeat split; try reflexivity; intros; lia.
Qed.

(** X2 on the sample catalogue, which holds two copies of ISBN 123. *)
Lemma second_issue_is_refused_sample :
  snd (issue_book (fst (issue_book sample_world "123" 0%nat)) "123" 0%nat)
  = (false, AlreadyHeld (fst (issue_book sample_world "123" 0%nat)) 0%nat).
Proof.
  assert (Hb : get_book sample_world "123" = Some 0%nat) by reflexivity.
  assert (Hs : fst (snd (issue_book sample_world "123" 0%nat)) = true) by reflexivity.
  destruct (second_issue_is_refused sample_world "123" 0%nat 0%nat Hb Hs)
    as (_ & _ & Hheld & _).
  apply Hheld. vm_compute. reflexivity.
Defined.

(** X3. Return requires a loan.  When the member's borrowed list repeats no
    ISBN, a second [return_book] after a successful one fails with the
    does-not-have message and changes nothing. *)
Theorem second_return_is_refused (w : World) (isbn : string) (member : addr) :
  List.NoDup (Member.borrowed_books (member_obj w member)) ->
  fst (snd (return_book w isbn member)) = true ->
  return_book (fst (return_book w isbn member)) isbn member
  = (fst (return_book w isbn member),
     (false, NotHeld (fst (return_book w isbn member)) member)).
Proof.
  intros Hnd. return_cases w isbn member; cbn [fst snd]; try discriminate.
  intros _.
  assert (Hh1 : Member.has_book (member_obj (returned w book member isbn) member) isbn
                = false).
  { cbn. rewrite store_set_same. unfold Member.has_book. cbn.
    now apply list_contains_remove_same. }
  assert (Hb1 : get_book (returned w book member isbn) isbn = Some book)
    by assumption.
  return_cases (returned w book member isbn) isbn member; same_book; congruence.
Qed.

(** X3 on the sample catalogue: issue, return, return again. *)
Lemma second_return_is_refused_sample :
  fst (snd (return_book
              (fst (return_book (fst (issue_book sample_world "123" 0%nat))
                                "123" 0%nat))
              "123" 0%nat)) = false.
Proof.
  assert (Hnd : List.NoDup
                  (Member.borrowed_books
                     (member_obj (fst (issue_book sample_world "123" 0%nat)) 0%nat))).
  { cbn. repeat constructor. intros []. }
  assert (Hs : fst (snd (return_book (fst (issue_book sample_world "123" 0%nat))
                                     "123" 0%nat)) = true) by reflexivity.
  rewrite (second_return_is_refused (fst (issue_book sample_world "123" 0%nat))
             "123" 0%nat Hnd Hs).
  reflexivity.
Defined.

(** ** Invariants the workflow keeps *)

Lemma NoDup_snoc (l : list string) (x : string) :
  List.NoDup l -> ~ In x l -> List.NoDup (l ++ [x])%list.
Proof.
  induction 1 as [|y l Hy Hl IH]; intros Hx; simpl.
  - constructor; [intros []|constructor].
  - constructor.
    + rewrite List.in_app_iff. intros [H|[->|[]]]; [contradiction|].
      apply Hx. now left.
    + apply IH. intros H. apply Hx. now right.
Qed.

Lemma list_remove_cons (l : list string) (x y : string) :
  list_remove (y :: l) x = if String.eqb x y then l else y :: list_remove l x.
Proof. reflexivity. Qed.

Lemma list_remove_incl (l : list string) (x y : string) :
  In y (list_remove l x) -> In y l.
Proof.
  induction l as [|z l IH]; [intros []|]. rewrite list_remove_cons.
  destruct (String.eqb x z); [now right|].
  intros [->|H]; [now left | right; now apply IH].
Qed.

Lemma list_remove_NoDup (l : list string) (x : string) :
  List.NoDup l -> List.NoDup (list_remove l x).
Proof.
  induction 1 as [|y l Hy Hl IH]; [constructor|]. rewrite list_remove_cons.
  destruct (String.eqb x y); [assumption|].
  constructor; [|assumption]. intros H. apply Hy. now apply list_remove_incl in H.
Qed.

Lemma issued_well_formed (w : World) (book member : addr) (isbn : string) :
  well_formed w -> Member.has_book (member_obj w member) isbn = false ->
  well_formed (issued w book member isbn).
Proof.
  intros [Hbs Hms Hbl] Hh. constructor; [exact Hbs | exact Hms |].
  intros m Hm. cbn. unfold store_set.
  destruct (Nat.eqb m member) eqn:E; [|now apply Hbl].
  apply Nat.eqb_eq in E. subst m. cbn. apply NoDup_snoc; [now apply Hbl|].
  intros Hin. apply list_contains_In in Hin. unfold Member.has_book in Hh. congruence.
Qed.

Lemma returned_well_formed (w : World) (book member : addr) (isbn : string) :
  well_formed w -> well_formed (returned w book member isbn).
Proof.
  intros [Hbs Hms Hbl]. constructor; [exact Hbs | exact Hms |].
  intros m Hm. cbn. unfold store_set.
  destruct (Nat.eqb m member) eqn:E; [|now apply Hbl].
  apply Nat.eqb_eq in E. subst m. cbn. apply list_remove_NoDup. now apply Hbl.
Qed.

(** X4. The workflow keeps the catalogue well formed: after any call of
    [issue_book] or [return_book], for any member object, the dictionaries
    still hold distinct objects and no registered member's borrowed list
    repeats an ISBN. *)
Theorem workflow_keeps_well_formed (w : World) (isbn : string) (member : addr) :
  well_formed w ->
  well_formed (fst (issue_book w isbn member))
  /\ well_formed (fst (return_book w isbn member)).
Proof.
  intros Hwf. split.
  - issue_cases w isbn member; cbn [fst]; try assumption.
    now apply issued_well_formed.
  - return_cases w isbn member; cbn [fst]; try assumption.
    now apply returned_well_formed.
Qed.

(** X4 on the sample catalogue. *)
Lemma workflow_keeps_well_formed_sample :
  well_formed (fst (issue_book sample_world "123" 0%nat))
  /\ well_formed (fst (return_book sample_world "123" 0%nat)).
Proof.
  exact (workflow_keeps_well_formed sample_world "123" 0%nat sample_world_well_formed).
Defined.

(** X5. Copies never go negative: when no catalogued book has a negative
    number of copies, none has after any call of [issue_book] or
    [return_book]. *)
Theorem workflow_keeps_copies_non_negative
  (w : World) (isbn : string) (member : addr) :
  copies_non_negative w ->
  copies_non_negative (fst (issue_book w isbn member))
  /\ copies_non_negative (fst (return_book w isbn member)).
Proof.
  intros Hnn. split.
  - issue_cases w isbn member; cbn [fst]; try assumption.
    intros i b Hb. change (get_book w i = Some b) in Hb.
    specialize (Hnn i b Hb). cbn. unfold store_set.
    destruct (Nat.eqb b book) eqn:E; [|assumption].
    apply Nat.eqb_eq in E. subst b. cbn. lia.
  - return_cases w isbn member; cbn [fst]; try assumption.
    intros i b Hb. change (get_book w i = Some b) in Hb.
    specialize (Hnn i b Hb). cbn. unfold store_set.
    destruct (Nat.eqb b book) eqn:E; [|assumption].
    apply Nat.eqb_eq in E. subst b. cbn. lia.
Qed.

Lemma sample_world_copies_non_negative : copies_non_negative sample_world.
Proof. intros i b _. cbn. lia. Defined.

(** X5 on the sample catalogue. *)
Lemma workflow_keeps_copies_non_negative_sample :
  copies_non_negative (fst (issue_book sample_world "123" 0%nat))
  /\ copies_non_negative (fst (return_book sample_world "123" 0%nat)).
Proof.
  exact (workflow_keeps_copies_non_negative sample_world "123" 0%nat
           sample_world_copies_non_negative).
Defined.

(** X6 on the sample catalogue: the wrappers called with the id M1 and with
    an id that is not registered. *)
Lemma by_id_calls_conserve_sample :
  conserves_totals (fun w => fst (issue_book_by_id w "123" "M1")) sample_world
  /\ conserves_totals (fun w => fst (return_book_by_id w "123" "M7")) sample_world.
Proof.
  split.
  - exact (proj1 (by_id_calls_conserve sample_world "123" "M1"
                    sample_world_well_formed)).
  - exact (proj2 (by_id_calls_conserve sample_world "123" "M7"
                    sample_world_well_formed)).
Defined.

(** ** Statistics *)

(** Summing a measure over distinct objects, when the measure changes at one
    object only. *)
Lemma sum_change_at (f g : addr -> nat) (ms : list addr) (m : addr) :
  List.NoDup ms -> In m ms -> (forall x, x <> m -> g x = f x) ->
  (List.list_sum (List.map g ms) + f m = List.list_sum (List.map f ms) + g m)%nat.
Proof.
  intros Hnd Hin Hext. induction Hnd as [|x ms Hx Hnd IH]; [destruct Hin|].
  destruct (Nat.eq_dec x m) as [->|Hne].
  - assert (E : List.map g ms = List.map f ms).
    { apply List.map_ext_in. intros y Hy. apply Hext. intros ->. contradiction. }
    simpl. rewrite E. lia.
  - destruct Hin as [->|Hin]; [contradiction|].
    specialize (IH Hin). simpl. rewrite (Hext x Hne). lia.
Qed.

Lemma length_list_remove (l : list string) (x : string) :
  In x l -> S (List.length (list_remove l x)) = List.length l.
Proof.
  induction l as [|y l IH]; [intros []|]. rewrite list_remove_cons.
  destruct (String.eqb_spec x y) as [->|Hne]; [reflexivity|].
  intros [->|Hin]; [contradiction|]. simpl. now rewrite IH.
Qed.

(** X7. The statistics follow the workflow.  In a well-formed catalogue, a
    successful [issue_book] to a registered member raises the borrowed count
    of [get_library_stats] by exactly one and a successful [return_book]
    lowers it by exactly one; the numbers of books and of members stay the
    same; and the number of available books drops by one exactly when the
    last copy is issued and rises by one exactly when a book without copies
    gets one back. *)
Theorem stats_follow_workflow (w : World) (isbn : string) (member book : addr) :
  well_formed w -> registered w member -> get_book w isbn = Some book ->
  (fst (snd (issue_book w isbn member)) = true ->
   total_books (get_library_stats (fst (issue_book w isbn member)))
   = total_books (get_library_stats w)
   /\ total_members (get_library_stats (fst (issue_book w isbn member)))
      = total_members (get_library_stats w)
   /\ books_borrowed (get_library_stats (fst (issue_book w isbn member)))
      = S (books_borrowed (get_library_stats w))
   /\ (available_books (get_library_stats (fst (issue_book w isbn member)))
       + (if Z.eqb (Book.copies (book_obj w book)) 1 then 1 else 0)
       = available_books (get_library_stats w))%nat)
  /\ (fst (snd (return_book w isbn member)) = true ->
      total_books (get_library_stats (fst (return_book w isbn member)))
      = total_books (get_library_stats w)
      /\ total_members (get_library_stats (fst (return_book w isbn member)))
         = total_members (get_library_stats w)
      /\ S (books_borrowed (get_library_stats (fst (return_book w isbn member))))
         = books_borrowed (get_library_stats w)
      /\ (available_books (get_library_stats (fst (return_book w isbn member)))
          = available_books (get_library_stats w)
            + (if Z.eqb (Book.copies (book_obj w book)) 0 then 1 else 0))%nat).
Proof.
  intros [Hbs Hms Hbl] Hreg Hb.
  assert (Hbin : In book (list_books w)) by exact (dict_get_In _ _ _ Hb).
  split.
  - issue_cases w isbn member; cbn [fst snd]; try discriminate. intros _. same_book.
    split; [reflexivity|]. split; [reflexivity|]. split.
    + unfold get_library_stats, books_borrowed.
      pose proof (sum_change_at
                    (fun m => List.length (Member.borrowed_books (member_obj w m)))
                    (fun m => List.length
                                (Member.borrowed_books
                                   (member_obj (issued w book member isbn) m)))
                    (list_members w) member Hms Hreg) as Hsum.
      cbv beta in Hsum.
      change (dict_values (members (lib (issued w book member isbn))))
        with (list_members w).
      change (dict_values (members (lib w))) with (list_members w).
      assert (Hlen : List.length
                       (Member.borrowed_books (member_obj (issued w book member isbn) member))
                     = S (List.length (Member.borrowed_books (member_obj w member)))).
      { cbn. rewrite store_set_same. cbn. rewrite List.length_app. simpl. lia. }
      rewrite Hlen in Hsum.
      assert (Hsum' := Hsum ltac:(intros x Hx; cbn; now rewrite store_set_other)).
      lia.
    + unfold get_library_stats, available_books, get_available_books.
      pose proof (count_change_at
                    (fun b => 0 <? Book.copies (book_obj w b))
                    (fun b => 0 <? Book.copies (book_obj (issued w book member isbn) b))
                    (list_books w) book Hbs Hbin) as Hcount.
      cbv beta in Hcount. rewrite copies_issued in Hcount.
      change (dict_values (books (lib (issued w book member isbn))))
        with (list_books w).
      change (dict_values (books (lib w))) with (list_books w).
      assert (Hcount' := Hcount ltac:(intros x Hx; cbn; now rewrite store_set_other)).
      clear Hcount.
      destruct (Z.ltb_spec 0 (Book.copies (book_obj w book))); [|lia].
      destruct (Z.ltb_spec 0 (Book.copies (book_obj w book) - 1));
        destruct (Z.eqb_spec (Book.copies (book_obj w book)) 1); lia.
  - return_cases w isbn member; cbn [fst snd]; try discriminate. intros _. same_book.
    split; [reflexivity|]. split; [reflexivity|]. split.
    + unfold get_library_stats, books_borrowed.
      pose proof (sum_change_at
                    (fun m => List.length (Member.borrowed_books (member_obj w m)))
                    (fun m => List.length
                                (Member.borrowed_books
                                   (member_obj (returned w book member isbn) m)))
                    (list_members w) member Hms Hreg) as Hsum.
      cbv beta in Hsum.
      change (dict_values (members (lib (returned w book member isbn))))
        with (list_members w).
      change (dict_values (members (lib w))) with (list_members w).
      assert (Hlen : S (List.length
                          (Member.borrowed_books
                             (member_obj (returned w book member isbn) member)))
                     = List.length (Member.borrowed_books (member_obj w member))).
      { cbn. rewrite store_set_same. cbn. apply length_list_remove.
        now apply list_contains_In. }
      assert (Hsum' := Hsum ltac:(intros x Hx; cbn; now rewrite store_set_other)).
      lia.
    + unfold get_library_stats, available_books, get_available_books.
      pose proof (count_change_at
                    (fun b => 0 <? Book.copies (book_obj w b))
                    (fun b => 0 <? Book.copies (book_obj (returned w book member isbn) b))
                    (list_books w) book Hbs Hbin) as Hcount.
      cbv beta in Hcount.
      assert (Hc : Book.copies (book_obj (returned w book member isbn) book)
                   = Book.copies (book_obj w book) + 1)
        by (cbn; now rewrite store_set_same).
      rewrite Hc in Hcount.
      change (dict_values (books (lib (returned w book member isbn))))
        with (list_books w).
      change (dict_values (books (lib w))) with (list_books w).
      assert (Hcount' := Hcount ltac:(intros x Hx; cbn; now rewrite store_set_other)).
      clear Hcount.
      destruct (Z.ltb_spec 0 (Book.copies (book_obj w book)));
        destruct (Z.ltb_spec 0 (Book.copies (book_obj w book) + 1));
        destruct (Z.eqb_spec (Book.copies (book_obj w book)) 0); lia.
Qed.

(** X7 on the sample catalogue: one book with two copies, one member. *)
Lemma stats_follow_workflow_sample :
  books_borrowed (get_library_stats (fst (issue_book sample_world "123" 0%nat)))
  = S (books_borrowed (get_library_stats sample_world))
  /\ total_books (get_library_stats (fst (issue_book sample_world "123" 0%nat)))
     = total_books (get_library_stats sample_world).
Proof.
  assert (Hreg : registered sample_world 0%nat) by (left; reflexivity).
  assert (Hb : get_book sample_world "123" = Some 0%nat) by reflexivity.
  destruct (stats_follow_workflow sample_world "123" 0%nat 0%nat
              sample_world_well_formed Hreg Hb) as (Hissue & _).
  destruct (Hissue eq_refl) as (Hbooks & _ & Hborrowed & _).
  split; [exact Hborrowed | exact Hbooks].
Defined.

(** ** The catalogue dictionaries *)

Lemma dict_get_set_same {V : Type} (d : dict V) (k : string) (v : V) :
  dict_get (dict_set d k v) k = Some v.
Proof.
  induction d as [|[k' v'] d IH]; simpl.
  - now rewrite String.eqb_refl.
  - destruct (String.eqb_spec k k') as [->|Hne]; simpl.
    + now rewrite String.eqb_refl.
    + apply String.eqb_neq in Hne. now rewrite Hne.
Qed.

Lemma dict_get_set_other {V : Type} (d : dict V) (k k' : string) (v : V) :
  k' <> k -> dict_get (dict_set d k v) k' = dict_get d k'.
Proof.
  intros Hne. induction d as [|[k0 v0] d IH]; simpl.
  - apply String.eqb_neq in Hne. now rewrite Hne.
  - destruct (String.eqb_spec k k0) as [->|Hk]; simpl.
    + apply String.eqb_neq in Hne. now rewrite Hne.
    + now rewrite IH.
Qed.

Lemma dict_set_absent {V : Type} (d : dict V) (k : string) (v : V) :
  dict_get d k = None -> dict_set d k v = (d ++ [(k, v)])%list.
Proof.
  induction d as [|[k0 v0] d IH]; simpl; [reflexivity|].
  destruct (String.eqb k k0); [discriminate|]. intros H. now rewrite IH.
Qed.

Lemma dict_set_keys {V : Type} (d : dict V) (k : string) (v : V) :
  dict_get d k <> None -> List.map fst (dict_set d k v) = List.map fst d.
Proof.
  induction d as [|[k0 v0] d IH]; simpl; [congruence|].
  destruct (String.eqb k k0); [reflexivity|]. intros H. simpl. now rewrite IH.
Qed.

Lemma dict_get_None_keys {V : Type} (d : dict V) (k : string) :
  dict_get d k = None <-> ~ In k (List.map fst d).
Proof.
  induction d as [|[k0 v0] d IH]; simpl; [tauto|].
  destruct (String.eqb_spec k k0) as [->|Hne].
  - split; [discriminate|]. intros H. exfalso. apply H. now left.
  - rewrite IH. split.
    + intros H [E|Hin]; [now subst | contradiction].
    + intros H Hin. apply H. now right.
Qed.

Lemma dict_set_keys_unique {V : Type} (d : dict V) (k : string) (v : V) :
  keys_unique d -> keys_unique (dict_set d k v).
Proof.
  unfold keys_unique. intros Hnd.
  destruct (dict_get d k) as [v0|] eqn:E.
  - rewrite dict_set_keys; [assumption | congruence].
  - rewrite dict_set_absent by assumption. rewrite List.map_app. simpl.
    apply NoDup_snoc; [assumption|]. now apply dict_get_None_keys.
Qed.

Lemma dict_del_keys_incl {V : Type} (d : dict V) (k k' : string) :
  In k' (List.map fst (dict_del d k)) -> In k' (List.map fst d).
Proof.
  induction d as [|[k0 v0] d IH]; simpl; [intros []|].
  destruct (String.eqb k k0); [now right|].
  simpl. intros [->|H]; [now left | right; now apply IH].
Qed.

Lemma dict_del_keys_unique {V : Type} (d : dict V) (k : string) :
  keys_unique d -> keys_unique (dict_del d k).
Proof.
  unfold keys_unique. induction d as [|[k0 v0] d IH]; simpl; [intros H; exact H|].
  intros Hnd. apply List.NoDup_cons_iff in Hnd as [Hnotin Hnd].
  destruct (String.eqb k k0); [assumption|]. simpl. constructor.
  - intros H. apply Hnotin. now apply dict_del_keys_incl in H.
  - now apply IH.
Qed.

Lemma dict_get_del_same {V : Type} (d : dict V) (k : string) :
  keys_unique d -> dict_get (dict_del d k) k = None.
Proof.
  unfold keys_unique. induction d as [|[k0 v0] d IH]; simpl; [reflexivity|].
  intros Hnd. apply List.NoDup_cons_iff in Hnd as [Hnotin Hnd].
  destruct (String.eqb_spec k k0) as [->|Hne].
  - now apply dict_get_None_keys.
  - simpl. apply String.eqb_neq in Hne. rewrite Hne. now apply IH.
Qed.

Lemma dict_get_del_other {V : Type} (d : dict V) (k k' : string) :
  k' <> k -> dict_get (dict_del d k) k' = dict_get d k'.
Proof.
  intros Hne. induction d as [|[k0 v0] d IH]; simpl; [reflexivity|].
  destruct (String.eqb_spec k k0) as [->|Hk]; simpl.
  - apply String.eqb_neq in Hne. now rewrite Hne.
  - now rewrite IH.
Qed.

(** X8. [add_book] never refuses a book.  The book is then found under its
    ISBN and every other ISBN finds what it found before.  A new ISBN goes to
    the end of the catalogue; an ISBN that is already catalogued keeps its
    place and the number of entries, and the book stored before is replaced
    (the last write wins).  The keys stay pairwise different. *)
Theorem add_book_then_get_book (w : World) (book : addr) :
  snd (add_book w book) = true
  /\ get_book (fst (add_book w book)) (Book.isbn (book_obj w book)) = Some book
  /\ (forall isbn, isbn <> Book.isbn (book_obj w book) ->
        get_book (fst (add_book w book)) isbn = get_book w isbn)
  /\ (get_book w (Book.isbn (book_obj w book)) = None ->
      list_books (fst (add_book w book)) = (list_books w ++ [book])%list)
  /\ (get_book w (Book.isbn (book_obj w book)) <> None ->
      List.map fst (books (lib (fst (add_book w book))))
      = List.map fst (books (lib w)))
  /\ (keys_unique (books (lib w)) -> keys_unique (books (lib (fst (add_book w book)))))
  /\ members (lib (fst (add_book w book))) = members (lib w).
Proof.
  unfold add_book, get_book, list_books. cbn [fst snd lib set_lib books members].
  split; [reflexivity|]. split; [apply dict_get_set_same|].
  split; [intros isbn Hne; now apply dict_get_set_other|].
  split.
  { intros Hnone. rewrite dict_set_absent by assumption.
    unfold dict_values. now rewrite List.map_app. }
  split; [apply dict_set_keys|]. split; [apply dict_set_keys_unique | reflexivity].
Qed.

(** X8 on the sample catalogue: adding the book object at address 1, which
    carries the catalogued ISBN 123, replaces the book stored under it. *)
Lemma add_book_then_get_book_sample :
  get_book sample_world "123" = Some 0%nat
  /\ get_book (fst (add_book sample_world 1%nat)) "123" = Some 1%nat
  /\ List.length (list_books (fst (add_book sample_world 1%nat))) = 1%nat.
Proof.
  destruct (add_book_then_get_book sample_world 1%nat) as (_ & Hget & _).
  split; [reflexivity|]. split; [exact Hget | reflexivity].
Defined.

(** X9. [remove_book] answers True exactly when the ISBN is catalogued.
    Afterwards the ISBN finds no book and every other ISBN finds what it
    found before; for an ISBN that is not catalogued the state is left as it
    is.  Object stores and members are never touched. *)
Theorem remove_book_then_get_book (w : World) (isbn : string) :
  keys_unique (books (lib w)) ->
  (snd (remove_book w isbn) = true <-> get_book w isbn <> None)
  /\ get_book (fst (remove_book w isbn)) isbn = None
  /\ (forall other, other <> isbn ->
        get_book (fst (remove_book w isbn)) other = get_book w other)
  /\ (get_book w isbn = None -> fst (remove_book w isbn) = w)
  /\ keys_unique (books (lib (fst (remove_book w isbn))))
  /\ members (lib (fst (remove_book w isbn))) = members (lib w)
  /\ book_obj (fst (remove_book w isbn)) = book_obj w
  /\ member_obj (fst (remove_book w isbn)) = member_obj w.
Proof.
  intros Hku. unfold remove_book, get_book.
  destruct (dict_get (books (lib w)) isbn) as [book|] eqn:E;
    cbn [fst snd lib set_lib books members book_obj member_obj].
  - split; [split; [discriminate | reflexivity]|].
    split; [now apply dict_get_del_same|].
    split; [intros other Hne; now apply dict_get_del_other|].
    split; [discriminate|]. split; [now apply dict_del_keys_unique|].
    repeat split.
  - split; [split; [discriminate | congruence]|].
    split; [exact E|]. repeat split; assumption.
Qed.

Lemma sample_world_keys_unique : keys_unique (books (lib sample_world)).
Proof. cbn. repeat constructor. intros []. Defined.

(** X9 on the sample catalogue. *)
Lemma remove_book_then_get_book_sample :
  get_book (fst (remove_book sample_world "123")) "123" = None
  /\ fst (remove_book sample_world "999") = sample_world.
Proof.
  destruct (remove_book_then_get_book sample_world "123" sample_world_keys_unique)
    as (_ & Hgone & _).
  destruct (remove_book_then_get_book sample_world "999" sample_world_keys_unique)
    as (_ & _ & _ & Hsame & _).
  split; [exact Hgone | apply Hsame; reflexivity].
Defined.

(** X10. [remove_book] never looks at the borrowed lists.  A member who
    holds the ISBN still holds it after the book is removed, and can no
    longer return it: [return_book] then fails with the not-found message
    and changes nothing. *)
Theorem removed_book_cannot_be_returned (w : World) (isbn : string) (member : addr) :
  keys_unique (books (lib w)) ->
  Member.has_book (member_obj w member) isbn = true ->
  Member.has_book (member_obj (fst (remove_book w isbn)) member) isbn = true
  /\ return_book (fst (remove_book w isbn)) isbn member
     = (fst (remove_book w isbn), (false, NotFound isbn)).
Proof.
  intros Hku Hh.
  assert (Hgone : get_book (fst (remove_book w isbn)) isbn = None).
  { unfold remove_book, get_book.
    destruct (dict_get (books (lib w)) isbn) as [book|] eqn:E; cbn.
    - now apply dict_get_del_same.
    - exact E. }
  assert (Hm : member_obj (fst (remove_book w isbn)) = member_obj w).
  { unfold remove_book. now destruct (dict_get (books (lib w)) isbn). }
  split; [now rewrite Hm|].
  unfold return_book. now rewrite Hgone.
Qed.

(** X10 on the sample catalogue: the member borrows ISBN 123, the book is
    removed, and the return is refused. *)
Lemma removed_book_cannot_be_returned_sample :
  fst (snd (return_book
              (fst (remove_book (fst (issue_book sample_world "123" 0%nat)) "123"))
              "123" 0%nat)) = false.
Proof.
  assert (Hku : keys_unique (books (lib (fst (issue_book sample_world "123" 0%nat)))))
    by exact sample_world_keys_unique.
  assert (Hh : Member.has_book
                 (member_obj (fst (issue_book sample_world "123" 0%nat)) 0%nat) "123"
               = true) by reflexivity.
  destruct (removed_book_cannot_be_returned
              (fst (issue_book sample_world "123" 0%nat)) "123" 0%nat Hku Hh)
    as (_ & Hret).
  now rewrite Hret.
Defined.

(** X11. The member registry round trip.  [add_member] never refuses a
    member: the member is then found under its id, other ids find what they
    found before, and a member already registered under that id is replaced.
    With pairwise different ids, [remove_member] answers True exactly when
    the id is registered, after which the id finds no member and other ids
    find what they found before; an id that is not registered leaves the
    state as it is. *)
Theorem member_registry_round_trip (w : World) (member : addr) (member_id : string) :
  (snd (add_member w member) = true
   /\ get_member (fst (add_member w member)) (Member.member_id (member_obj w member))
      = Some member
   /\ (forall other, other <> Member.member_id (member_obj w member) ->
         get_member (fst (add_member w member)) other = get_member w other)
   /\ (keys_unique (members (lib w)) ->
       keys_unique (members (lib (fst (add_member w member))))))
  /\ (keys_unique (members (lib w)) ->
      (snd (remove_member w member_id) = true <-> get_member w member_id <> None)
      /\ get_member (fst (remove_member w member_id)) member_id = None
      /\ (forall other, other <> member_id ->
            get_member (fst (remove_member w member_id)) other = get_member w other)
      /\ (get_member w member_id = None -> fst (remove_member w member_id) = w)
      /\ keys_unique (members (lib (fst (remove_member w member_id))))).
Proof.
  split.
  - unfold add_member, get_member. cbn [fst snd lib set_lib books members].
    split; [reflexivity|]. split; [apply dict_get_set_same|].
    split; [intros other Hne; now apply dict_get_set_other|].
    apply dict_set_keys_unique.
  - intros Hku. unfold remove_member, get_member.
    destruct (dict_get (members (lib w)) member_id) as [m|] eqn:E;
      cbn [fst snd lib set_lib books members].
    + split; [split; [discriminate | reflexivity]|].
      split; [now apply dict_get_del_same|].
      split; [intros other Hne; now apply dict_get_del_other|].
      split; [discriminate|]. now apply dict_del_keys_unique.
    + split; [split; [discriminate | congruence]|].
      split; [exact E|]. repeat split; assumption.
Qed.

(** X11 on the sample catalogue: the unregistered member at address 1 is
    added under its id M9 and removed again. *)
Lemma member_registry_round_trip_sample :
  get_member (fst (add_member sample_world 1%nat)) "M9" = Some 1%nat
  /\ get_member (fst (remove_member (fst (add_member sample_world 1%nat)) "M9")) "M9"
     = None.
Proof.
  destruct (member_registry_round_trip sample_world 1%nat "M9") as ((_ & Hadd & _) & _).
  assert (Hku : keys_unique (members (lib (fst (add_member sample_world 1%nat))))).
  { cbn. repeat constructor; [intros [H|[]]; discriminate H | intros []]. }
  destruct (member_registry_round_trip (fst (add_member sample_world 1%nat)) 0%nat "M9")
    as (_ & Hrem).
  destruct (Hrem Hku) as (_ & Hgone & _).
  split; [exact Hadd | exact Hgone].
Defined.

(** Deleting the entry of a key takes its value out of the count. *)
Lemma count_dict_del (f : addr -> bool) (d : dict addr) (k : string) (v : addr) :
  dict_get d k = Some v ->
  (List.length (List.filter f (dict_values (dict_del d k))) + (if f v then 1 else 0)
   = List.length (List.filter f (dict_values d)))%nat.
Proof.
  induction d as [|[k0 v0] d IH]; simpl; [discriminate|].
  destruct (String.eqb k k0).
  - intros [= ->]. destruct (f v); simpl; lia.
  - intros H. specialize (IH H). simpl. destruct (f v0); simpl; lia.
Qed.

(** X12. [remove_member] never gives borrowed books back.  When a registered
    member who holds an ISBN is removed, the book's copies stay as they are,
    so the per-ISBN total (copies plus registered holders) drops by one: the
    copy the member held is lost to the catalogue. *)
Theorem remove_member_loses_loans
  (w : World) (member_id isbn : string) (member book : addr) :
  get_member w member_id = Some member ->
  get_book w isbn = Some book ->
  Member.has_book (member_obj w member) isbn = true ->
  snd (remove_member w member_id) = true
  /\ Book.copies (book_obj (fst (remove_member w member_id)) book)
     = Book.copies (book_obj w book)
  /\ S (holders (fst (remove_member w member_id)) isbn) = holders w isbn
  /\ (forall total, total_copies w isbn = Some total ->
        total_copies (fst (remove_member w member_id)) isbn = Some (total - 1)).
Proof.
  intros Hm Hb Hh. unfold get_member in Hm.
  assert (Hholders : S (holders (fst (remove_member w member_id)) isbn) = holders w isbn).
  { unfold remove_member. rewrite Hm. cbn [fst]. unfold holders, list_members.
    cbn [lib set_lib members member_obj].
    pose proof (count_dict_del (fun m => Member.has_book (member_obj w m) isbn)
                  (members (lib w)) member_id member Hm) as Hcount.
    cbv beta in Hcount. rewrite Hh in Hcount. lia. }
  assert (Hcopies : Book.copies (book_obj (fst (remove_member w member_id)) book)
                    = Book.copies (book_obj w book)).
  { unfold remove_member. now rewrite Hm. }
  assert (Hbook : get_book (fst (remove_member w member_id)) isbn = Some book).
  { unfold remove_member. now rewrite Hm. }
  split; [unfold remove_member; now rewrite Hm|].
  split; [exact Hcopies|]. split; [exact Hholders|].
  intros total. unfold total_copies. rewrite Hb, Hbook, Hcopies.
  intros [= <-]. f_equal. lia.
Qed.

(** X12 on the sample catalogue: the member borrows ISBN 123 and is removed;
    the total for the ISBN goes from two to one. *)
Lemma remove_member_loses_loans_sample :
  total_copies (fst (issue_book sample_world "123" 0%nat)) "123" = Some 2
  /\ total_copies
       (fst (remove_member (fst (issue_book sample_world "123" 0%nat)) "M1")) "123"
     = Some (2 - 1).
Proof.
  assert (Hm : get_member (fst (issue_book sample_world "123" 0%nat)) "M1" = Some 0%nat)
    by reflexivity.
  assert (Hb : get_book (fst (issue_book sample_world "123" 0%nat)) "123" = Some 0%nat)
    by reflexivity.
  assert (Hh : Member.has_book
                 (member_obj (fst (issue_book sample_world "123" 0%nat)) 0%nat) "123"
               = true) by reflexivity.
  destruct (remove_member_loses_loans (fst (issue_book sample_world "123" 0%nat))
              "M1" "123" 0%nat 0%nat Hm Hb Hh) as (_ & _ & _ & Htotal).
  split; [reflexivity|]. apply Htotal. reflexivity.
Defined.

(** ** More on search *)

Lemma search_by_title_filter (w : World) (query : string) :
  query <> EmptyString ->
  search_by_title w query
  = List.filter
      (fun book => str_contains (lower (Book.title (book_obj w book))) (lower query))
      (list_books w).
Proof.
  intros Hne. unfold search_by_title.
  destruct query as [|c q]; [contradiction|]. cbn [str_truthy negb].
  apply collect_loop_filter.
Qed.

Lemma search_by_author_filter (w : World) (query : string) :
  query <> EmptyString ->
  search_by_author w query
  = List.filter
      (fun book => str_contains (lower (Book.author (book_obj w book))) (lower query))
      (list_books w).
Proof.
  intros Hne. unfold search_by_author.
  destruct query as [|c q]; [contradiction|]. cbn [str_truthy negb].
  apply collect_loop_filter.
Qed.



Lemma obj_in_In (l : list addr) (x : addr) : obj_in l x = true <-> In x l.
Proof.
  unfold obj_in. rewrite List.existsb_exists. split.
  - intros (y & Hy & He). apply Nat.eqb_eq in He. now subst.
  - intros H. exists x. split; [assumption | apply Nat.eqb_refl].
Qed.

(** The loop that appends what is not yet in the results. *)
Lemma append_new_In (l acc : list addr) (x : addr) :
  In x (List.fold_left
          (fun results book =>
             if negb (obj_in results book) then (results ++ [book])%list else results)
          l acc)
  <-> In x acc \/ In x l.
Proof.
  revert acc. induction l as [|b l IH]; intros acc; simpl; [tauto|].
  rewrite IH. destruct (obj_in acc b) eqn:E; cbn [negb].
  - apply obj_in_In in E. split; [tauto|]. intros [H|[->|H]]; tauto.
  - rewrite List.in_app_iff. simpl. tauto.
Qed.

Lemma NoDup_snoc_addr (l : list addr) (x : addr) :
  List.NoDup l -> ~ In x l -> List.NoDup (l ++ [x])%list.
Proof.
  induction 1 as [|y l Hy Hl IH]; intros Hx; simpl.
  - constructor; [intros []|constructor].
  - constructor.
    + rewrite List.in_app_iff. intros [H|[->|[]]]; [contradiction|].
      apply Hx. now left.
    + apply IH. intros H. apply Hx. now right.
Qed.

Lemma append_new_NoDup (l acc : list addr) :
  List.NoDup acc ->
  List.NoDup (List.fold_left
                (fun results book =>
                   if negb (obj_in results book) then (results ++ [book])%list
                   else results)
                l acc).
Proof.
  revert acc. induction l as [|b l IH]; intros acc Hnd; simpl; [assumption|].
  apply IH. destruct (obj_in acc b) eqn:E; cbn [negb]; [assumption|].
  apply NoDup_snoc_addr; [assumption|]. intros H. apply obj_in_In in H. congruence.
Qed.

Lemma append_new_fresh (l acc : list addr) :
  List.NoDup (acc ++ l)%list ->
  List.fold_left
    (fun results book =>
       if negb (obj_in results book) then (results ++ [book])%list else results)
    l acc
  = (acc ++ l)%list.
Proof.
  revert acc. induction l as [|b l IH]; intros acc Hnd; simpl.
  - now rewrite List.app_nil_r.
  - assert (Hb : obj_in acc b = false).
    { destruct (obj_in acc b) eqn:E; [|reflexivity]. apply obj_in_In in E.
      apply List.NoDup_remove_2 in Hnd. exfalso. apply Hnd.
      apply List.in_or_app. now left. }
    rewrite Hb. cbn [negb]. rewrite IH; rewrite <- List.app_assoc; [reflexivity|].
    exact Hnd.
Qed.

Lemma append_new_prefix (l acc : list addr) :
  exists rest,
    List.fold_left
      (fun results book =>
         if negb (obj_in results book) then (results ++ [book])%list else results)
      l acc
    = (acc ++ rest)%list.
Proof.
  revert acc. induction l as [|b l IH]; intros acc; simpl.
  - exists []. now rewrite List.app_nil_r.
  - destruct (negb (obj_in acc b)); [|apply IH].
    destruct (IH (acc ++ [b])%list) as (rest & ->). exists (b :: rest).
    now rewrite <- List.app_assoc.
Qed.

Lemma search_books_all_unfold (w : World) (query : string) :
  query <> EmptyString ->
  search_books w query "all"
  = let results :=
      List.fold_left
        (fun results book =>
           if negb (obj_in results book) then (results ++ [book])%list else results)
        (search_by_author w query) (search_by_title w query) in
    match get_book w query with
    | Some isbn_result =>
        if negb (obj_in results isbn_result)
        then (results ++ [isbn_result])%list else results
    | None => results
    end.
Proof.
  intros Hne. unfold search_books, search_by_isbn.
  destruct query as [|c q]; [contradiction|]. reflexivity.
Qed.

(** X14. The one-criterion modes of [search_books], for a non-empty query.
    Title mode is [search_by_title].  Author mode is [search_by_author] when
    the catalogue holds distinct book objects (the loop drops repeated
    objects).  ISBN mode is the book stored under exactly that ISBN, or
    nothing: no partial match and no change of letter case. *)
Theorem search_books_single_modes (w : World) (query : string) :
  query <> EmptyString ->
  search_books w query "title" = search_by_title w query
  /\ (List.NoDup (list_books w) ->
      search_books w query "author" = search_by_author w query)
  /\ search_books w query "isbn"
     = match get_book w query with
       | Some book => [book]
       | None => []
       end.
Proof.
  intros Hne. unfold search_books, search_by_isbn.
  destruct query as [|c q]; [contradiction|]. cbn [str_truthy negb].
  split; [reflexivity|]. split.
  - intros Hnd. change (list_contains ["all"; "title"] "author") with false.
    change (list_contains ["all"; "author"] "author") with true.
    change (list_contains ["all"; "isbn"] "author") with false.
    cbv iota. rewrite append_new_fresh; [reflexivity|]. cbn [List.app].
    rewrite search_by_author_filter by discriminate. now apply List.NoDup_filter.
  - change (list_contains ["all"; "title"] "isbn") with false.
    change (list_contains ["all"; "author"] "isbn") with false.
    change (list_contains ["all"; "isbn"] "isbn") with true.
    cbv iota. now destruct (get_book w (String c q)).
Qed.

(** X14 on the three-book catalogue. *)
Lemma search_books_single_modes_sample :
  search_books search_world "Python" "title" = [0%nat; 1%nat]
  /\ search_books search_world "Python" "author" = [2%nat]
  /\ search_books search_world "222" "isbn" = [1%nat]
  /\ search_books search_world "22" "isbn" = [].
Proof.
  assert (Hnd : List.NoDup (list_books search_world)).
  { cbn. repeat constructor; cbn; intuition discriminate. }
  destruct (search_books_single_modes search_world "Python") as (Ht & Ha & _);
    [discriminate|].
  destruct (search_books_single_modes search_world "222") as (_ & _ & Hi);
    [discriminate|].
  destruct (search_books_single_modes search_world "22") as (_ & _ & Hi');
    [discriminate|].
  rewrite Ht, (Ha Hnd), Hi, Hi'. repeat split; reflexivity.
Defined.

(** X15. [search_books] in all mode, for a non-empty query.  A book is in
    the result exactly when its title matches, its author matches, or it is
    stored under exactly the queried ISBN; the title matches come first, as
    [search_by_title] returns them; and when the catalogue holds distinct
    book objects no book is returned twice. *)
Theorem search_books_all_mode (w : World) (query : string) :
  query <> EmptyString ->
  (forall book,
     In book (search_books w query "all")
     <-> In book (search_by_title w query)
         \/ In book (search_by_author w query)
         \/ get_book w query = Some book)
  /\ (exists rest, search_books w query "all" = (search_by_title w query ++ rest)%list)
  /\ (List.NoDup (list_books w) -> List.NoDup (search_books w query "all")).
Proof.
  intros Hne. rewrite search_books_all_unfold by assumption. cbv zeta.
  split; [|split].
  - intros book. destruct (get_book w query) as [b|].
    + destruct (obj_in _ b) eqn:E; cbn [negb].
      * rewrite append_new_In. apply obj_in_In in E. apply append_new_In in E.
        split; [tauto|]. intros [H|[H|[= <-]]]; tauto.
      * rewrite List.in_app_iff, append_new_In. simpl. split.
        -- intros [[H|H]|[->|[]]]; tauto.
        -- intros [H|[H|[= ->]]]; tauto.
    + rewrite append_new_In. split; [tauto|]. intros [H|[H|H]]; [tauto|tauto|discriminate].
  - destruct (append_new_prefix (search_by_author w query) (search_by_title w query))
      as (rest & ->).
    destruct (get_book w query) as [b|]; [|now exists rest].
    destruct (negb (obj_in _ b)); [|now exists rest].
    exists (rest ++ [b])%list. now rewrite List.app_assoc.
  - intros Hnd.
    assert (Hloop : List.NoDup
                      (List.fold_left
                         (fun results book =>
                            if negb (obj_in results book)
                            then (results ++ [book])%list else results)
                         (search_by_author w query) (search_by_title w query))).
    { apply append_new_NoDup. rewrite search_by_title_filter by assumption.
      now apply List.NoDup_filter. }
    destruct (get_book w query) as [b|]; [|assumption].
    destruct (obj_in _ b) eqn:E; cbn [negb]; [assumption|].
    apply NoDup_snoc_addr; [assumption|]. intros H. apply obj_in_In in H. congruence.
Qed.

(** X15 on the three-book catalogue: two title matches, then the author
    match. *)
Lemma search_books_all_mode_sample :
  In 2%nat (search_books search_world "Python" "all")
  /\ List.NoDup (search_books search_world "Python" "all").
Proof.
  assert (Hnd : List.NoDup (list_books search_world)).
  { cbn. repeat constructor; cbn; intuition discriminate. }
  destruct (search_books_all_mode search_world "Python") as (Hin & _ & Hnodup);
    [discriminate|].
  split; [|exact (Hnodup Hnd)].
  apply Hin. right. left. cbn. now left.
Defined.






Lemma filter_isbn_key (w : World) (d : dict addr) (q : string) :
  keys_unique d ->
  (forall isbn book, In (isbn, book) d -> Book.isbn (book_obj w book) = isbn) ->
  List.filter (fun book => String.eqb (Book.isbn (book_obj w book)) q) (dict_values d)
  = match dict_get d q with
    | Some book => [book]
    | None => []
    end.
Proof.
  unfold keys_unique. induction d as [|[k b] d IH]; intros Hku Hkey; simpl;
    [reflexivity|].
  apply List.NoDup_cons_iff in Hku as [Hnotin Hku].
  assert (Hb : Book.isbn (book_obj w b) = k) by (apply Hkey; now left).
  assert (Hrest : forall isbn book, In (isbn, book) d ->
                                    Book.isbn (book_obj w book) = isbn).
  { intros i b' Hin. apply Hkey. now right. }
  specialize (IH Hku Hrest). rewrite Hb, String.eqb_sym.
  destruct (String.eqb_spec q k) as [->|Hne]; [|exact IH].
  f_equal. rewrite IH.
  destruct (dict_get d k) eqn:E; [|reflexivity].
  apply dict_get_None_keys in Hnotin. cbn [fst] in Hnotin. congruence.
Qed.

(** X17. The two ISBN searches agree on a catalogue whose books are stored
    under the ISBN they carry: [advanced_search] with only a non-empty ISBN,
    which compares the ISBN attribute of every book, returns the one book
    [search_by_isbn] finds by key, or nothing. *)
Theorem advanced_search_isbn_agrees (w : World) (query : string) :
  keys_unique (books (lib w)) -> keyed_by_isbn w -> query <> EmptyString ->
  advanced_search w None None (Some query) false
  = match search_by_isbn w query with
    | Some book => [book]
    | None => []
    end.
Proof.
  intros Hku Hkey Hne. unfold advanced_search, search_by_isbn, get_book. cbv zeta.
  destruct query as [|c q]; [contradiction|]. cbn [str_truthy].
  now apply filter_isbn_key.
Qed.

Lemma search_world_keyed : keys_unique (books (lib search_world)) /\ keyed_by_isbn search_world.
Proof.
  split.
  - cbn. repeat constructor; cbn; intuition discriminate.
  - intros i b. cbn. intros [[= <- <-]|[[= <- <-]|[[= <- <-]|[]]]]; reflexivity.
Defined.

(** X17 on the three-book catalogue. *)
Lemma advanced_search_isbn_agrees_sample :
  advanced_search search_world None None (Some "222") false = [1%nat].
Proof.
  rewrite (advanced_search_isbn_agrees search_world "222"
             (proj1 search_world_keyed) (proj2 search_world_keyed));
    [reflexivity | discriminate].
Defined.

Lemma filter_length_split (f : addr -> bool) (l : list addr) :
  (List.length (List.filter f l) + List.length (List.filter (fun x => negb (f x)) l)
   = List.length l)%nat.
Proof.
  induction l as [|x l IH]; simpl; [reflexivity|].
  destruct (f x); simpl; lia.
Qed.

(** X18. The counts of [search_statistics] are consistent: the total is the
    number of books [search_books] finds in all mode, the available matches
    are those with a copy left, the unavailable matches are exactly those
    without one (so the difference the code computes is never negative), the
    query is handed back, and the empty query counts nothing. *)
Theorem search_statistics_counts (w : World) (query : string) :
  total_matches (search_statistics w query)
  = Z.of_nat (List.length (search_books w query "all"))
  /\ available_matches (search_statistics w query)
     = Z.of_nat
         (List.length
            (List.filter (fun book => 0 <? Book.copies (book_obj w book))
                         (search_books w query "all")))
  /\ unavailable_matches (search_statistics w query)
     = Z.of_nat
         (List.length
            (List.filter (fun book => Book.copies (book_obj w book) <=? 0)
                         (search_books w query "all")))
  /\ stats_query (search_statistics w query) = query
  /\ (query = EmptyString ->
      search_statistics w query = mk_search_stats 0 0 0 EmptyString).
Proof.
  unfold search_statistics, search_available_books. cbn.
  pose proof (filter_length_split
                (fun book => 0 <? Book.copies (book_obj w book))
                (search_books w query "all")) as Hsplit.
  assert (E : List.filter (fun book => negb (0 <? Book.copies (book_obj w book)))
                (search_books w query "all")
              = List.filter (fun book => Book.copies (book_obj w book) <=? 0)
                  (search_books w query "all")).
  { apply List.filter_ext. intros book.
    destruct (Z.ltb_spec 0 (Book.copies (book_obj w book)));
      destruct (Z.leb_spec (Book.copies (book_obj w book)) 0); reflexivity || lia. }
  cbv beta in Hsplit. rewrite E in Hsplit.
  repeat split; try lia. intros ->. reflexivity.
Qed.

(** X18 on the three-book catalogue: three matches for Python, one of them
    without a copy. *)
Lemma search_statistics_counts_sample :
  search_statistics search_world "Python" = mk_search_stats 3 2 1 "Python"
  /\ search_statistics search_world EmptyString = mk_search_stats 0 0 0 EmptyString.
Proof.
  destruct (search_statistics_counts search_world EmptyString) as (_ & _ & _ & _ & H0).
  split; [reflexivity | now apply H0].
Defined.

(** ** Accounts *)

Section Accounts.

Variable hash_password : string -> string.

(** X19. Registration round trip.  [add_user] refuses a username that is
    taken and then changes nothing, so the stored password stays.  For a new
    username it answers True; afterwards [authenticate] with the registered
    password succeeds and hands back the username, the role and the user
    info, and with any password of a different digest it fails with the
    invalid-password message and changes nothing.  Other users and the
    sessions are untouched. *)
Theorem add_user_then_authenticate
  (a : AuthSystem) (now : Z) (username password role : string)
  (user_info : option (list (string * string))) :
  (forall existing, users a !! username = Some existing ->
     add_user hash_password a now username password role user_info = (a, false))
  /\ (users a !! username = None ->
      snd (add_user hash_password a now username password role user_info) = true
      /\ sessions (fst (add_user hash_password a now username password role user_info))
         = sessions a
      /\ (forall other, other <> username ->
            users (fst (add_user hash_password a now username password role user_info))
              !! other
            = users a !! other)
      /\ (forall now',
            snd (authenticate hash_password
                   (fst (add_user hash_password a now username password role user_info))
                   now' username password)
            = (true, UserData username role
                       (match user_info with Some i => i | None => [] end)))
      /\ (forall now' wrong,
            hash_password wrong <> hash_password password ->
            authenticate hash_password
              (fst (add_user hash_password a now username password role user_info))
              now' username wrong
            = (fst (add_user hash_password a now username password role user_info),
               (false, ErrorMessage "Invalid password")))).
Proof.
  unfold add_user. split.
  - intros existing ->. reflexivity.
  - intros ->. cbn [fst snd sessions set_users users].
    split; [reflexivity|]. split; [reflexivity|].
    split; [intros other Hne; now apply lookup_insert_ne|]. split.
    + intros now'. unfold authenticate. cbn [users set_users].
      rewrite lookup_insert_eq. cbn. now rewrite String.eqb_refl.
    + intros now' wrong Hdiff. unfold authenticate. cbn [users set_users].
      rewrite lookup_insert_eq. cbn.
      assert (E : String.eqb (hash_password password) (hash_password wrong) = false)
        by (apply String.eqb_neq; congruence).
      now rewrite E.
Qed.

(** X20. [authenticate] fails with the username-not-found message exactly
    for a username that is not registered and with the invalid-password
    message exactly for a registered user whose stored digest differs from
    the digest of the password; a failure changes nothing.  A success hands
    back the username, role and info and records the clock reading as that
    user's last login: the password, the role, the other users and the
    sessions stay as they are, so no session is created by authenticating. *)
Theorem authenticate_spec (a : AuthSystem) (now : Z) (username password : string) :
  (users a !! username = None ->
   authenticate hash_password a now username password
   = (a, (false, ErrorMessage "Username not found")))
  /\ (forall user,
        users a !! username = Some user ->
        User.password user <> hash_password password ->
        authenticate hash_password a now username password
        = (a, (false, ErrorMessage "Invalid password")))
  /\ (forall user,
        users a !! username = Some user ->
        User.password user = hash_password password ->
        snd (authenticate hash_password a now username password)
        = (true, UserData username (User.role user) (User.info user))
        /\ users (fst (authenticate hash_password a now username password)) !! username
           = Some (User.mk (User.password user) (User.role user) (User.info user)
                           (User.created_at user) (Some now))
        /\ (forall other, other <> username ->
              users (fst (authenticate hash_password a now username password)) !! other
              = users a !! other))
  /\ sessions (fst (authenticate hash_password a now username password)) = sessions a
  /\ session_timeout (fst (authenticate hash_password a now username password))
     = session_timeout a.
Proof.
  unfold authenticate. destruct (users a !! username) as [user|] eqn:Hu.
  - destruct (String.eqb_spec (User.password user) (hash_password password)) as [E|N];
      cbn [negb fst snd users sessions session_timeout set_users].
    + split; [discriminate|]. split; [intros user' [= <-] Hne; contradiction|].
      split; [|split; reflexivity]. intros user' [= <-] _.
      split; [reflexivity|]. split; [apply lookup_insert_eq|].
      intros other Hne. now apply lookup_insert_ne.
    + split; [discriminate|]. split; [reflexivity|].
      split; [|split; reflexivity]. intros user' [= <-] E. contradiction.
  - cbn [fst snd sessions session_timeout].
    split; [reflexivity|]. split; [discriminate|]. split; [discriminate|].
    split; reflexivity.
Qed.

Lemma get_user_role_authenticate (a : AuthSystem) (now : Z)
  (username password who : string) :
  get_user_role (fst (authenticate hash_password a now username password)) who
  = get_user_role a who.
Proof.
  unfold authenticate, get_user_role.
  destruct (users a !! username) as [user|] eqn:Hu; [|reflexivity].
  destruct (negb _); [reflexivity|]. cbn [fst users set_users].
  destruct (decide (who = username)) as [->|Hne].
  - now rewrite lookup_insert_eq, Hu.
  - now rewrite lookup_insert_ne by congruence.
Qed.

(** X21. Roles are fixed at registration.  Whatever the arguments,
    [authenticate], [change_password], [create_session], [validate_session],
    [logout] and [cleanup_expired_sessions] leave the role of every username
    as it was, and [add_user] leaves the role of every username that is
    already registered; so do the answers of [is_librarian] and
    [is_member]. *)
Theorem roles_never_change (a : AuthSystem) (now : Z) (who : string) :
  (forall username password,
     get_user_role (fst (authenticate hash_password a now username password)) who
     = get_user_role a who)
  /\ (forall username old_password new_password a' r,
        change_password hash_password a now username old_password new_password
        = Returns (a', r) ->
        get_user_role a' who = get_user_role a who
        /\ is_librarian a' who = is_librarian a who
        /\ is_member a' who = is_member a who)
  /\ (forall token now' username,
        get_user_role (fst (create_session a token now now' username)) who
        = get_user_role a who)
  /\ (forall token,
        get_user_role (fst (validate_session a now token)) who = get_user_role a who)
  /\ (forall token, get_user_role (fst (logout a token)) who = get_user_role a who)
  /\ get_user_role (fst (cleanup_expired_sessions a now)) who = get_user_role a who
  /\ (forall username password role user_info,
        users a !! who <> None ->
        get_user_role
          (fst (add_user hash_password a now username password role user_info)) who
        = get_user_role a who).
Proof.
  split; [intros; apply get_user_role_authenticate|].
  split.
  { intros username old_password new_password a' r.
    unfold change_password.
    pose proof (get_user_role_authenticate a now username old_password who) as Hrole.
    destruct (authenticate hash_password a now username old_password)
      as [a1 [ok data]]. cbn [fst] in Hrole.
    destruct ok; cbn [negb].
    - destruct (users a1 !! username) as [user|] eqn:Hu; [|discriminate].
      intros [= <- _].
      assert (E : get_user_role
                    (set_users a1
                       (<[username:=User.set_password user (hash_password new_password)]>
                          (users a1))) who
                  = get_user_role a who).
      { rewrite <- Hrole. unfold get_user_role. cbn [users set_users].
        destruct (decide (who = username)) as [->|Hne].
        - now rewrite lookup_insert_eq, Hu.
        - now rewrite lookup_insert_ne by congruence. }
      unfold is_librarian, is_member. now rewrite E.
    - intros [= <- _]. unfold is_librarian, is_member. now rewrite Hrole. }
  split; [reflexivity|].
  split.
  { intros token. unfold validate_session.
    destruct (sessions a !! token) as [s|]; [|reflexivity].
    now destruct (Session.expires_at s <? now). }
  split.
  { intros token. unfold logout. now destruct (sessions a !! token). }
  split; [reflexivity|].
  intros username password role user_info Hwho. unfold add_user.
  destruct (users a !! username) eqn:Hu; [reflexivity|].
  unfold get_user_role. cbn [fst users set_users].
  rewrite lookup_insert_ne; [reflexivity|]. intros ->. contradiction.
Qed.

End Accounts.

(** X19 on the fresh system: a new reader account, and a second
    registration under the librarian's name. *)
Lemma add_user_then_authenticate_sample :
  snd (authenticate sample_digest
         (fst (add_user sample_digest sample_auth 5 "reader" "pw" "member" None))
         6 "reader" "pw")
  = (true, UserData "reader" "member" [])
  /\ add_user sample_digest sample_auth 5 "librarian" "pw" "member" None
     = (sample_auth, false).
Proof.
  destruct (add_user_then_authenticate sample_digest sample_auth 5
              "reader" "pw" "member" None) as (_ & Hnew).
  destruct (add_user_then_authenticate sample_digest sample_auth 5
              "librarian" "pw" "member" None) as (Hdup & _).
  assert (Hfree : users sample_auth !! "reader" = None) by (vm_compute; reflexivity).
  destruct (Hnew Hfree) as (_ & _ & _ & Hauth & _).
  split; [exact (Hauth 6)|].
  assert (Htaken : users sample_auth !! "librarian"
                   = Some (User.mk (sample_digest "admin123") "librarian"
                             [("name", "System Librarian");
                              ("email", "librarian@library.com")] 0 None))
    by (vm_compute; reflexivity).
  exact (Hdup _ Htaken).
Defined.

(** X20 on the fresh system: an unknown username and a wrong password. *)
Lemma authenticate_spec_sample :
  authenticate sample_digest sample_auth 7 "nobody" "admin123"
  = (sample_auth, (false, ErrorMessage "Username not found"))
  /\ authenticate sample_digest sample_auth 7 "member" "admin123"
     = (sample_auth, (false, ErrorMessage "Invalid password")).
Proof.
  destruct (authenticate_spec sample_digest sample_auth 7 "nobody" "admin123")
    as (Hnone & _).
  destruct (authenticate_spec sample_digest sample_auth 7 "member" "admin123")
    as (_ & Hbad & _).
  split.
  - apply Hnone. vm_compute. reflexivity.
  - apply (Hbad (User.mk (sample_digest "member123") "member"
                   [("name", "Sample Member"); ("email", "member@example.com")]
                   0 None)).
    + vm_compute. reflexivity.
    + vm_compute. discriminate.
Defined.

(** X21 on the fresh system: the librarian stays a librarian across a
    password change. *)
Lemma roles_never_change_sample :
  exists a' r,
    change_password sample_digest sample_auth 10 "librarian" "admin123" "s3cret"
    = Returns (a', r)
    /\ is_librarian a' "librarian" = is_librarian sample_auth "librarian".
Proof.
  destruct (change_password sample_digest sample_auth 10 "librarian" "admin123" "s3cret")
    as [[a' r]|exn] eqn:E; [|vm_compute in E; discriminate E].
  exists a', r. split; [reflexivity|].
  destruct (roles_never_change sample_digest sample_auth 10 "librarian")
    as (_ & Hchange & _).
  exact (proj1 (proj2 (Hchange _ _ _ _ _ E))).
Defined.

(** ** More on sessions *)

(** X22. [logout] answers True exactly when the token has a session.
    Afterwards the token has none and does not validate, the other sessions
    and the users are as before, and a second [logout] of the same token
    answers False and changes nothing. *)
Theorem logout_spec (a : AuthSystem) (token : string) :
  (snd (logout a token) = true <-> sessions a !! token <> None)
  /\ sessions (fst (logout a token)) !! token = None
  /\ (forall other, other <> token ->
        sessions (fst (logout a token)) !! other = sessions a !! other)
  /\ users (fst (logout a token)) = users a
  /\ (sessions a !! token = None -> fst (logout a token) = a)
  /\ logout (fst (logout a token)) token = (fst (logout a token), false)
  /\ (forall now,
        validate_session (fst (logout a token)) now token
        = (fst (logout a token), (false, None))).
Proof.
  assert (Hgone : sessions (fst (logout a token)) !! token = None).
  { unfold logout. destruct (sessions a !! token) as [s|] eqn:E; cbn.
    - apply lookup_delete_eq.
    - exact E. }
  split.
  { unfold logout. destruct (sessions a !! token); cbn; split; congruence. }
  split; [exact Hgone|]. split.
  { intros other Hne. unfold logout.
    destruct (sessions a !! token); cbn; [now apply lookup_delete_ne | reflexivity]. }
  split; [unfold logout; now destruct (sessions a !! token)|].
  split; [unfold logout; now intros ->|].
  split.
  - unfold logout at 1. now rewrite Hgone.
  - intros now. unfold validate_session. now rewrite Hgone.
Qed.

(** X22 on the sample session. *)
Lemma logout_spec_sample :
  snd (logout sample_auth_session "token-1") = true
  /\ logout (fst (logout sample_auth_session "token-1")) "token-1"
     = (fst (logout sample_auth_session "token-1"), false).
Proof.
  destruct (logout_spec sample_auth_session "token-1") as (Hiff & _ & _ & _ & _ & H2 & _).
  split; [|exact H2]. apply Hiff. vm_compute. discriminate.
Defined.

(** X23. A session that was just created validates until its expiry and not
    after.  At any clock reading up to the creation reading plus the timeout,
    [validate_session] answers (True, username) for the new token and leaves
    the store as [create_session] left it; in particular at the creation
    reading itself when the timeout is not negative.  At any later reading it
    answers (False, None) and the store no longer has the token. *)
Theorem created_session_validates
  (a : AuthSystem) (token : string) (now_expiry now_created now : Z)
  (username : string) :
  (now <= now_expiry + timedelta_minutes (session_timeout a) ->
   validate_session (fst (create_session a token now_expiry now_created username))
                    now token
   = (fst (create_session a token now_expiry now_created username),
      (true, Some username)))
  /\ (0 <= session_timeout a ->
      snd (validate_session
             (fst (create_session a token now_expiry now_created username))
             now_expiry token)
      = (true, Some username))
  /\ (now_expiry + timedelta_minutes (session_timeout a) < now ->
      snd (validate_session
             (fst (create_session a token now_expiry now_created username)) now token)
      = (false, None)
      /\ sessions
           (fst (validate_session
                   (fst (create_session a token now_expiry now_created username))
                   now token))
         = delete token (sessions a)).
Proof.
  unfold validate_session, create_session. cbn [fst sessions set_sessions].
  rewrite lookup_insert_eq. cbn [Session.expires_at Session.username].
  split; [|split].
  - intros Hle.
    destruct (Z.ltb_spec (now_expiry + timedelta_minutes (session_timeout a)) now);
      [lia | reflexivity].
  - intros Hpos. unfold timedelta_minutes.
    destruct (Z.ltb_spec (now_expiry + session_timeout a * 60000000) now_expiry);
      [lia | reflexivity].
  - intros Hlt.
    destruct (Z.ltb_spec (now_expiry + timedelta_minutes (session_timeout a)) now);
      [|lia].
    cbn [fst snd sessions set_sessions]. split; [reflexivity|].
    apply delete_insert_eq.
Qed.

(** X23 on the fresh system with its 30-minute timeout: valid after 29
    minutes, invalid after 31. *)
Lemma created_session_validates_sample :
  snd (validate_session (fst (create_session sample_auth "token-3" 0 0 "member"))
         (29 * 60000000) "token-3")
  = (true, Some "member")
  /\ snd (validate_session (fst (create_session sample_auth "token-3" 0 0 "member"))
            (31 * 60000000) "token-3")
     = (false, None).
Proof.
  destruct (created_session_validates sample_auth "token-3" 0 0 (29 * 60000000) "member")
    as (Hvalid & _).
  destruct (created_session_validates sample_auth "token-3" 0 0 (31 * 60000000) "member")
    as (_ & _ & Hexpired).
  split.
  - rewrite Hvalid; [reflexivity|]. vm_compute. discriminate.
  - apply Hexpired. vm_compute. reflexivity.
Defined.

Lemma filter_none {A : Type} (f : A -> bool) (l : list A) :
  (forall x, In x l -> f x = false) -> List.filter f l = [].
Proof.
  induction l as [|x l IH]; simpl; [reflexivity|]. intros H.
  rewrite (H x) by now left. apply IH. intros y Hy. apply H. now right.
Qed.

Lemma fmap_fst_map {A B : Type} (l : list (A * B)) : l.*1 = List.map fst l.
Proof. induction l as [|x l IH]; [reflexivity|]. cbn. now f_equal. Qed.

Lemma NoDup_map_fst_filter {A B : Type} (f : A * B -> bool) (l : list (A * B)) :
  List.NoDup (List.map fst l) -> List.NoDup (List.map fst (List.filter f l)).
Proof.
  induction l as [|x l IH]; simpl; [intros H; exact H|].
  intros Hnd. apply List.NoDup_cons_iff in Hnd as [Hx Hnd].
  destruct (f x); simpl; [|now apply IH]. constructor; [|now apply IH].
  intros Hin. apply Hx. apply List.in_map_iff in Hin as (y & Hy & Hin).
  apply List.in_map_iff. exists y. split; [assumption|].
  now apply List.filter_In in Hin as [Hin _].
Qed.

(** Deleting distinct keys that are all present shrinks the map by their
    number. *)
Lemma fold_delete_size (l : list string) (m : gmap string Session.t) :
  List.NoDup l -> (forall k, In k l -> m !! k <> None) ->
  (size (List.fold_left (fun s token => delete token s) l m) + List.length l
   = size m)%nat.
Proof.
  revert m. induction l as [|t l IH]; intros m Hnd Hin; simpl; [lia|].
  apply List.NoDup_cons_iff in Hnd as [Ht Hnd].
  rewrite <- Nat.add_succ_comm.
  assert (Hsome : is_Some (m !! t)).
  { destruct (m !! t) eqn:E; [eauto|]. exfalso. apply (Hin t); [now left | exact E]. }
  pose proof (map_size_delete_Some t m Hsome) as Hsize.
  destruct Hsome as [s Hs].
  assert (Hpos : size m <> 0%nat).
  { intros H0. apply map_size_empty_inv in H0. subst m. now rewrite lookup_empty in Hs. }
  rewrite <- (IH (delete t m) Hnd) in Hsize.
  - lia.
  - intros k Hk. rewrite lookup_delete_ne; [apply Hin; now right|].
    intros ->. contradiction.
Qed.

(** X24. [cleanup_expired_sessions] returns the number of sessions it
    removed: the count plus the size of the store it leaves is the size of
    the store it found.  Every session it leaves was there before and has an
    expiry the clock has not passed, so it validates at that reading; and a
    second sweep at the same reading removes nothing and returns 0. *)
Theorem cleanup_expired_sessions_count (a : AuthSystem) (now : Z) :
  (snd (cleanup_expired_sessions a now)
   + size (sessions (fst (cleanup_expired_sessions a now)))
   = size (sessions a))%nat
  /\ (forall token s,
        sessions (fst (cleanup_expired_sessions a now)) !! token = Some s ->
        sessions a !! token = Some s
        /\ now <= Session.expires_at s
        /\ snd (validate_session (fst (cleanup_expired_sessions a now)) now token)
           = (true, Some (Session.username s)))
  /\ users (fst (cleanup_expired_sessions a now)) = users a
  /\ cleanup_expired_sessions (fst (cleanup_expired_sessions a now)) now
     = (fst (cleanup_expired_sessions a now), 0%nat).
Proof.
  assert (Hkept : forall token s,
             sessions (fst (cleanup_expired_sessions a now)) !! token = Some s ->
             sessions a !! token = Some s /\ now <= Session.expires_at s).
  { intros token s. rewrite cleanup_expired_sessions_lookup.
    destruct (sessions a !! token) as [s'|]; [|discriminate].
    destruct (Z.ltb_spec (Session.expires_at s') now); [discriminate|].
    intros [= <-]. auto. }
  split; [|split; [|split]].
  - unfold cleanup_expired_sessions. cbn [fst snd sessions set_sessions].
    rewrite Nat.add_comm. apply fold_delete_size.
    + apply NoDup_map_fst_filter.
      pose proof (NoDup_fst_map_to_list (sessions a)) as Hnd.
      apply NoDup_ListNoDup in Hnd. now rewrite fmap_fst_map in Hnd.
    + intros k Hk. apply expired_tokens_spec in Hk as (s & Hs & _). congruence.
  - intros token s Hs. destruct (Hkept token s Hs) as (Hold & Hle).
    split; [assumption|]. split; [assumption|].
    unfold validate_session. rewrite Hs.
    destruct (Z.ltb_spec (Session.expires_at s) now); [lia | reflexivity].
  - reflexivity.
  - generalize dependent (fst (cleanup_expired_sessions a now)). intros a1 Hkept.
    unfold cleanup_expired_sessions.
    rewrite (filter_none (fun ts => Session.expires_at (snd ts) <? now)
               (map_to_list (sessions a1))).
    + cbn. now destruct a1.
    + intros [k s] Hin. cbn. apply list_elem_of_In in Hin.
      apply elem_of_map_to_list in Hin. destruct (Hkept k s Hin) as (_ & Hle).
      destruct (Z.ltb_spec (Session.expires_at s) now); [lia | reflexivity].
Qed.

(** X24 on the sample session: nothing to remove at its expiry instant, one
    session removed a microsecond later. *)
Lemma cleanup_expired_sessions_count_sample :
  (snd (cleanup_expired_sessions sample_auth_session 1800001001)
   + size (sessions (fst (cleanup_expired_sessions sample_auth_session 1800001001)))
   = size (sessions sample_auth_session))%nat
  /\ snd (cleanup_expired_sessions sample_auth_session 1800001001) = 1%nat
  /\ snd (cleanup_expired_sessions sample_auth_session 1800001000) = 0%nat.
Proof.
  destruct (cleanup_expired_sessions_count sample_auth_session 1800001001) as (Hsum & _).
  split; [exact Hsum|]. split; vm_compute; reflexivity.
Defined.

(** ** The module-level authenticate *)

Lemma default_users_lookup (username : string) :
  Legacy.default_users !! username
  = if String.eqb username "member" then Some "member123"
    else if String.eqb username "librarian" then Some "admin123"
    else None.
Proof.
  unfold Legacy.default_users.
  destruct (String.eqb_spec username "member") as [->|Hm].
  - apply lookup_insert_eq.
  - rewrite lookup_insert_ne by congruence.
    destruct (String.eqb_spec username "librarian") as [->|Hl].
    + apply lookup_insert_eq.
    + rewrite lookup_insert_ne by congruence. apply lookup_empty.
Qed.

(** X25. The module-level [authenticate].  Without a user database it
    accepts exactly the two built-in accounts, librarian with admin123 and
    member with member123.  An empty database counts as no database, so the
    built-in accounts are accepted then too.  With a database that is not
    empty it accepts exactly the pairs stored in it, and the built-in
    accounts only if the database lists them. *)
Theorem legacy_authenticate_spec (username password : string) :
  (Legacy.authenticate username password None = true
   <-> (username = "librarian" /\ password = "admin123")
       \/ (username = "member" /\ password = "member123"))
  /\ Legacy.authenticate username password (Some (empty : gmap string string))
     = Legacy.authenticate username password None
  /\ (forall db : gmap string string,
        db <> empty ->
        (Legacy.authenticate username password (Some db) = true
         <-> db !! username = Some password)).
Proof.
  split; [|split].
  - unfold Legacy.authenticate, Legacy.get_equals. cbn [Legacy.dict_truthy].
    rewrite default_users_lookup.
    destruct (String.eqb_spec username "member") as [->|Hm].
    + rewrite String.eqb_eq. split.
      * intros <-. right. auto.
      * intros [[H _]|[_ H]]; [discriminate H | now symmetry].
    + destruct (String.eqb_spec username "librarian") as [->|Hl].
      * rewrite String.eqb_eq. split.
        -- intros <-. left. auto.
        -- intros [[_ H]|[H _]]; [now symmetry | discriminate H].
      * split; [discriminate|]. intros [[H _]|[H _]]; contradiction.
  - unfold Legacy.authenticate, Legacy.dict_truthy.
    now rewrite bool_decide_eq_true_2.
  - intros db Hne. unfold Legacy.authenticate, Legacy.dict_truthy, Legacy.get_equals.
    rewrite bool_decide_eq_false_2 by assumption. cbn [negb].
    destruct (db !! username) as [stored|]; [|split; discriminate].
    rewrite String.eqb_eq. split; congruence.
Qed.

(** X25 on concrete arguments: the built-in librarian passes with an empty
    database and fails with a database that lists another user only. *)
Lemma legacy_authenticate_spec_sample :
  Legacy.authenticate "librarian" "admin123" (Some (empty : gmap string string)) = true
  /\ (Legacy.authenticate "librarian" "admin123"
        (Some (<["bob" := "pw"]> (empty : gmap string string))) = true
      <-> (<["bob" := "pw"]> (empty : gmap string string)) !! "librarian"
          = Some "admin123").
Proof.
  destruct (legacy_authenticate_spec "librarian" "admin123") as (Hnone & Hempty & Hdb).
  split.
  - rewrite Hempty. apply Hnone. left. auto.
  - apply Hdb. intros H.
    assert (E : (<["bob" := "pw"]> (empty : gmap string string)) !! "bob"
                = (empty : gmap string string) !! "bob") by now rewrite H.
    rewrite lookup_insert_eq, lookup_empty in E. discriminate E.
Defined.

(** ** Queries on loans *)

(** X26. [check_book_availability] agrees with [issue_book].  For an ISBN
    that is not catalogued it reports (False, False, 0) with the not-found
    message.  For a catalogued book it reports that the book exists, its
    number of copies, and available exactly when that number is positive;
    and [issue_book] succeeds exactly when the check reports available and
    the member does not hold the ISBN. *)
Theorem check_book_availability_spec (w : World) (isbn : string) (member : addr) :
  (get_book w isbn = None ->
   check_book_availability w isbn
   = (false, false, 0, "Book with ISBN " +:+ isbn +:+ " not found"))
  /\ (forall book,
        get_book w isbn = Some book ->
        fst (fst (fst (check_book_availability w isbn))) = true
        /\ snd (fst (check_book_availability w isbn)) = Book.copies (book_obj w book)
        /\ (snd (fst (fst (check_book_availability w isbn))) = true
            <-> 0 < Book.copies (book_obj w book)))
  /\ (fst (snd (issue_book w isbn member)) = true
      <-> snd (fst (fst (check_book_availability w isbn))) = true
          /\ Member.has_book (member_obj w member) isbn = false).
Proof.
  unfold check_book_availability. split; [|split].
  - intros ->. reflexivity.
  - intros book ->. cbn. split; [reflexivity|]. split; [reflexivity|].
    apply Z.ltb_lt.
  - issue_cases w isbn member; cbn [fst snd];
      repeat match goal with H : get_book _ _ = _ |- _ => rewrite H end;
      cbn [fst snd].
    + split; [discriminate | intros [Hx _]; discriminate Hx].
    + split; [discriminate|]. intros [Hx _]. apply Z.ltb_lt in Hx. lia.
    + split; [discriminate|]. intros [_ Hx]. congruence.
    + split; [|reflexivity]. intros _. split; [now apply Z.ltb_lt | assumption].
Qed.

(** X26 on the sample catalogue. *)
Lemma check_book_availability_spec_sample :
  check_book_availability sample_world "123"
  = (true, true, 2, "Book 'T1' - 2 copies available")
  /\ check_book_availability sample_world "999"
     = (false, false, 0, "Book with ISBN 999 not found").
Proof.
  destruct (check_book_availability_spec sample_world "999" 0%nat) as (Hnone & _).
  split; [reflexivity | now apply Hnone].
Defined.

Lemma borrowed_details_loop (w : World) (l : list string)
  (acc : list borrowed_detail) :
  List.fold_left
    (fun borrowed_details isbn =>
       match get_book w isbn with
       | Some book =>
           (borrowed_details
              ++ [mk_borrowed_detail isbn (Book.title (book_obj w book))
                                     (Book.author (book_obj w book))])%list
       | None => borrowed_details
       end) l acc
  = (acc ++ List.flat_map (detail_of w) l)%list.
Proof.
  revert acc. induction l as [|i l IH]; intros acc; simpl.
  - now rewrite List.app_nil_r.
  - rewrite IH. unfold detail_of at 2. destruct (get_book w i); simpl.
    + now rewrite <- List.app_assoc.
    + reflexivity.
Qed.

Lemma detail_isbns (w : World) (l : list string) :
  List.map detail_isbn (List.flat_map (detail_of w) l)
  = List.filter (fun isbn => match get_book w isbn with Some _ => true | None => false end)
                l.
Proof.
  induction l as [|i l IH]; simpl; [reflexivity|].
  rewrite List.map_app, IH. unfold detail_of. now destruct (get_book w i).
Qed.

(** X27. [get_member_borrowed_books] fails with the member-not-found message
    for an id that is not registered.  For a registered member it lists, in
    the order of the borrowed list, the borrowed ISBNs that are still
    catalogued, each with the title and author of the book stored under it;
    an ISBN whose book was removed from the catalogue is left out without
    notice, so the list can be shorter than the borrowed list. *)
Theorem get_member_borrowed_books_spec (w : World) (member_id : string) :
  (get_member w member_id = None ->
   get_member_borrowed_books w member_id
   = (false, Message ("Member with ID " +:+ member_id +:+ " not found")))
  /\ (forall member,
        get_member w member_id = Some member ->
        exists details,
          get_member_borrowed_books w member_id = (true, Details details)
          /\ List.map detail_isbn details
             = List.filter
                 (fun isbn => match get_book w isbn with Some _ => true | None => false end)
                 (Member.borrowed_books (member_obj w member))
          /\ (List.length details <= Member.get_borrowed_count (member_obj w member))%nat
          /\ (forall d, In d details ->
                exists book,
                  get_book w (detail_isbn d) = Some book
                  /\ detail_title d = Book.title (book_obj w book)
                  /\ detail_author d = Book.author (book_obj w book))
          /\ ((forall isbn, In isbn (Member.borrowed_books (member_obj w member)) ->
                            get_book w isbn <> None) ->
              List.map detail_isbn details
              = Member.borrowed_books (member_obj w member))).
Proof.
  unfold get_member_borrowed_books. split.
  - intros ->. reflexivity.
  - intros member ->. eexists. split; [reflexivity|].
    rewrite borrowed_details_loop. cbn [List.app].
    assert (Hisbns := detail_isbns w (Member.borrowed_books (member_obj w member))).
    split; [exact Hisbns|]. split.
    { rewrite <- (List.length_map detail_isbn), Hisbns.
      apply List.filter_length_le. }
    split.
    { intros d Hd. apply List.in_flat_map in Hd as (i & _ & Hd).
      unfold detail_of in Hd. destruct (get_book w i) as [book|] eqn:E; [|destruct Hd].
      destruct Hd as [<-|[]]. cbn. now exists book. }
    intros Hall. rewrite Hisbns.
    assert (Hfilter : forall l : list string,
               (forall isbn, In isbn l -> get_book w isbn <> None) ->
               List.filter
                 (fun isbn => match get_book w isbn with Some _ => true | None => false end)
                 l = l).
    { induction l as [|i l IH]; simpl; [reflexivity|]. intros H.
      destruct (get_book w i) eqn:E.
      - f_equal. apply IH. intros j Hj. apply H. now right.
      - exfalso. apply (H i); [now left | exact E]. }
    now apply Hfilter.
Qed.

(** X27 on the sample catalogue: after the loan the member's list has one
    entry; after the book is removed it has none, though the member still
    holds the ISBN. *)
Lemma get_member_borrowed_books_spec_sample :
  get_member_borrowed_books (fst (issue_book sample_world "123" 0%nat)) "M1"
  = (true, Details [mk_borrowed_detail "123" "T1" "A1"])
  /\ get_member_borrowed_books
       (fst (remove_book (fst (issue_book sample_world "123" 0%nat)) "123")) "M1"
     = (true, Details [])
  /\ get_member_borrowed_books sample_world "M7"
     = (false, Message "Member with ID M7 not found").
Proof.
  destruct (get_member_borrowed_books_spec sample_world "M7") as (Hnone & _).
  split; [reflexivity|]. split; [reflexivity|]. now apply Hnone.
Defined.

Lemma overdue_inner_loop (w : World) (member : addr) (l : list string)
  (acc : list overdue_entry) :
  List.fold_left
    (fun borrowed_books isbn =>
       match get_book w isbn with
       | Some book =>
           (borrowed_books
              ++ [mk_overdue_entry (Member.member_id (member_obj w member))
                                   (Member.name (member_obj w member))
                                   isbn
                                   (Book.title (book_obj w book))
                                   (Book.author (book_obj w book))])%list
       | None => borrowed_books
       end) l acc
  = (acc ++ List.flat_map (entry_of w member) l)%list.
Proof.
  revert acc. induction l as [|i l IH]; intros acc; simpl.
  - now rewrite List.app_nil_r.
  - rewrite IH. unfold entry_of at 2. destruct (get_book w i); simpl.
    + now rewrite <- List.app_assoc.
    + reflexivity.
Qed.

Lemma overdue_outer_loop (w : World) (ms : list addr) (acc : list overdue_entry) :
  List.fold_left
    (fun borrowed_books member =>
       List.fold_left
         (fun borrowed_books isbn =>
            match get_book w isbn with
            | Some book =>
                (borrowed_books
                   ++ [mk_overdue_entry (Member.member_id (member_obj w member))
                                        (Member.name (member_obj w member))
                                        isbn
                                        (Book.title (book_obj w book))
                                        (Book.author (book_obj w book))])%list
            | None => borrowed_books
            end)
         (Member.borrowed_books (member_obj w member)) borrowed_books)
    ms acc
  = (acc ++ List.flat_map
              (fun member =>
                 List.flat_map (entry_of w member)
                               (Member.borrowed_books (member_obj w member)))
              ms)%list.
Proof.
  revert acc. induction ms as [|m ms IH]; intros acc; simpl.
  - now rewrite List.app_nil_r.
  - rewrite IH, overdue_inner_loop. now rewrite <- List.app_assoc.
Qed.

Lemma entry_of_length (w : World) (member : addr) (l : list string) :
  List.length (List.flat_map (entry_of w member) l)
  = List.length (List.filter (catalogued w) l).
Proof.
  induction l as [|i l IH]; simpl; [reflexivity|].
  rewrite List.length_app, IH. unfold entry_of, catalogued.
  now destruct (get_book w i).
Qed.

Lemma filter_catalogued_all (w : World) (l : list string) :
  (forall isbn, In isbn l -> get_book w isbn <> None) ->
  List.filter (catalogued w) l = l.
Proof.
  induction l as [|i l IH]; simpl; [reflexivity|]. intros H. unfold catalogued at 1.
  destruct (get_book w i) eqn:E.
  - f_equal. apply IH. intros j Hj. apply H. now right.
  - exfalso. apply (H i); [now left | exact E].
Qed.

(** X28. [get_overdue_books] consults no date: it lists every loan.  It
    walks the registered members in insertion order and, for each, the
    borrowed list in order, and gives one entry per borrowed ISBN that is
    still catalogued, carrying the member's id and name and the book's title
    and author.  So it never has more entries than the borrowed count of
    [get_library_stats], and it has exactly that many when every borrowed
    ISBN is catalogued. *)
Theorem get_overdue_books_lists_loans (w : World) :
  get_overdue_books w
  = List.flat_map
      (fun member =>
         List.flat_map (entry_of w member) (Member.borrowed_books (member_obj w member)))
      (list_members w)
  /\ (List.length (get_overdue_books w) <= books_borrowed (get_library_stats w))%nat
  /\ ((forall member isbn,
         In member (list_members w) ->
         In isbn (Member.borrowed_books (member_obj w member)) ->
         get_book w isbn <> None) ->
      List.length (get_overdue_books w) = books_borrowed (get_library_stats w))
  /\ (forall e, In e (get_overdue_books w) ->
        exists member book,
          In member (list_members w)
          /\ Member.has_book (member_obj w member) (entry_isbn e) = true
          /\ get_book w (entry_isbn e) = Some book
          /\ entry_member_id e = Member.member_id (member_obj w member)
          /\ entry_title e = Book.title (book_obj w book)).
Proof.
  assert (Heq : get_overdue_books w
                = List.flat_map
                    (fun member =>
                       List.flat_map (entry_of w member)
                                     (Member.borrowed_books (member_obj w member)))
                    (list_members w)).
  { unfold get_overdue_books. now rewrite overdue_outer_loop. }
  split; [exact Heq|]. rewrite Heq. clear Heq.
  unfold get_library_stats, books_borrowed.
  change (dict_values (members (lib w))) with (list_members w).
  split; [|split].
  - induction (list_members w) as [|m ms IH]; simpl; [lia|].
    rewrite List.length_app, entry_of_length.
    pose proof (List.filter_length_le (catalogued w)
                  (Member.borrowed_books (member_obj w m))). lia.
  - induction (list_members w) as [|m ms IH]; simpl; [reflexivity|]. intros Hall.
    rewrite List.length_app, entry_of_length, filter_catalogued_all.
    + f_equal. apply IH. intros m' i Hm' Hi. apply (Hall m' i); [now right | exact Hi].
    + intros i Hi. apply (Hall m i); [now left | exact Hi].
  - intros e He. apply List.in_flat_map in He as (m & Hm & He).
    apply List.in_flat_map in He as (i & Hi & He).
    unfold entry_of in He. destruct (get_book w i) as [book|] eqn:E; [|destruct He].
    destruct He as [<-|[]]. exists m, book. cbn.
    split; [assumption|]. split; [now apply list_contains_In|]. auto.
Qed.

(** X28 on the sample catalogue after one loan. *)
Lemma get_overdue_books_lists_loans_sample :
  get_overdue_books (fst (issue_book sample_world "123" 0%nat))
  = [mk_overdue_entry "M1" "N1" "123" "T1" "A1"]
  /\ List.length (get_overdue_books (fst (issue_book sample_world "123" 0%nat)))
     = books_borrowed (get_library_stats (fst (issue_book sample_world "123" 0%nat))).
Proof.
  destruct (get_overdue_books_lists_loans (fst (issue_book sample_world "123" 0%nat)))
    as (_ & _ & Hall & _).
  split; [reflexivity|]. apply Hall.
  intros member isbn [<-|[]] [<-|[]]. discriminate.
Defined.

(** ** Member methods *)

(** X29. The methods of [Member].  [borrow_book] answers True exactly when
    the member does not hold the ISBN, and then the ISBN is held and the
    borrowed count is one higher; for an ISBN already held it answers False
    and changes nothing, so a list without repetition stays without
    repetition.  [return_book] answers True exactly when the ISBN is held
    and then the count is one lower; for an ISBN not held it answers False
    and changes nothing.  Borrowing an ISBN that was not held and returning
    it gives the member back as it was. *)
Theorem member_methods_spec (m : Member.t) (isbn : string) :
  (snd (Member.borrow_book m isbn) = true <-> Member.has_book m isbn = false)
  /\ Member.has_book (fst (Member.borrow_book m isbn)) isbn = true
  /\ (Member.has_book m isbn = false ->
      Member.get_borrowed_count (fst (Member.borrow_book m isbn))
      = S (Member.get_borrowed_count m))
  /\ (Member.has_book m isbn = true -> Member.borrow_book m isbn = (m, false))
  /\ (List.NoDup (Member.borrowed_books m) ->
      List.NoDup (Member.borrowed_books (fst (Member.borrow_book m isbn)))
      /\ List.NoDup (Member.borrowed_books (fst (Member.return_book m isbn))))
  /\ (snd (Member.return_book m isbn) = true <-> Member.has_book m isbn = true)
  /\ (Member.has_book m isbn = true ->
      S (Member.get_borrowed_count (fst (Member.return_book m isbn)))
      = Member.get_borrowed_count m)
  /\ (Member.has_book m isbn = false -> Member.return_book m isbn = (m, false))
  /\ (Member.has_book m isbn = false ->
      fst (Member.return_book (fst (Member.borrow_book m isbn)) isbn) = m).
Proof.
  unfold Member.borrow_book, Member.return_book, Member.has_book,
    Member.get_borrowed_count.
  destruct m as [id name l]. cbn [Member.borrowed_books].
  destruct (list_contains l isbn) eqn:E; cbn [negb fst snd Member.borrowed_books
                                               Member.set_borrowed_books].
  - repeat split; intros; try congruence; try discriminate; try assumption.
    + now apply list_remove_NoDup.
    + apply length_list_remove. now apply list_contains_In.
  - rewrite list_contains_snoc, String.eqb_refl, orb_true_r.
    repeat split; intros; try congruence; try discriminate; try assumption.
    + rewrite List.length_app. simpl. lia.
    + apply NoDup_snoc; [assumption|]. intros Hin. apply list_contains_In in Hin.
      congruence.
    + cbn. now rewrite list_remove_snoc.
Qed.

(** X29 on a new member. *)
Lemma member_methods_spec_sample :
  fst (Member.return_book (fst (Member.borrow_book (Member.init "M1" "N1") "123")) "123")
  = Member.init "M1" "N1"
  /\ Member.return_book (Member.init "M1" "N1") "123" = (Member.init "M1" "N1", false).
Proof.
  destruct (member_methods_spec (Member.init "M1" "N1") "123")
    as (_ & _ & _ & _ & _ & _ & _ & Hnot & Hround).
  split; [apply Hround | apply Hnot]; reflexivity.
Defined.
